(** * smart-doc-query: the chat client (frontend/src/app/page.js) and the
      retrieval backend it drives

    The first part embeds the React component [DocumentChatApp] of
    [src/frontend/src/app/page.js]: its state, its asynchronous handlers
    (written in a small monad for state, exceptions and a trace of the
    calls made) and the events of its user interface.  The second part is
    a model of the backend behind the HTTP interface; the backend's code is
    not part of the sources at hand and is modelled from the specification. *)

From Stdlib Require Import List ZArith NArith Bool String Ascii Lia.
From Stdlib Require Import Permutation DecimalString.
Import ListNotations.

Set Implicit Arguments.
Set Warnings "-register-all,-notation-for-abbreviation".

(* ================================================================== *)
(** ** JavaScript values as the component handles them *)
(* ================================================================== *)

Module Js.

(** A JavaScript string is a sequence of UTF-16 code units. *)
Definition jsstring := list N.

(** A string literal of the source, each character taken as a code unit. *)
Definition lit (s : string) : jsstring :=
  map N_of_ascii (list_ascii_of_string s).

(** Values: what [response.json()] can produce, together with [undefined]
    (the value of an absent property).  Numbers are the integer-valued
    ones; objects list their own properties. *)
Inductive value : Type :=
| JUndefined
| JNull
| JBool (b : bool)
| JNum (z : Z)
| JStr (s : jsstring)
| JArr (elems : list value)
| JObj (fields : list (jsstring * value)).

Definition str (s : string) : value := JStr (lit s).

(** ToBoolean: [undefined], [null], [false], [0] and the empty string are
    falsy; every array and object is truthy. *)
Definition truthy (v : value) : bool :=
  match v with
  | JUndefined | JNull => false
  | JBool b => b
  | JNum z => negb (z =? 0)%Z
  | JStr s => match s with [] => false | _ => true end
  | JArr _ | JObj _ => true
  end.

(** [a || b] *)
Definition or_else (a b : value) : value := if truthy a then a else b.

Fixpoint jsstring_eqb (a b : jsstring) : bool :=
  match a, b with
  | [], [] => true
  | x :: a', y :: b' => (x =? y)%N && jsstring_eqb a' b'
  | _, _ => false
  end.

Fixpoint lookup (k : jsstring) (fields : list (jsstring * value)) : value :=
  match fields with
  | [] => JUndefined
  | (k', v) :: rest => if jsstring_eqb k k' then v else lookup k rest
  end.

(** [v.k] for the property names the component reads ([files], [sessions],
    [messages], [session_id], [response], [source_documents], [detail],
    [vectorstore_available], [document_count]): a TypeError ([None]) on
    [null] and [undefined], the property of an object, and [undefined] on
    every other value, none of which has a property of these names. *)
Definition get (v : value) (k : jsstring) : option value :=
  match v with
  | JUndefined | JNull => None
  | JObj fields => Some (lookup k fields)
  | _ => Some JUndefined
  end.

(** [a === b] on primitive values.  Arrays and objects compare by
    reference; two values read from different places of a parsed response
    are different references. *)
Definition strict_eq (a b : value) : bool :=
  match a, b with
  | JUndefined, JUndefined => true
  | JNull, JNull => true
  | JBool x, JBool y => Bool.eqb x y
  | JNum x, JNum y => (x =? y)%Z
  | JStr x, JStr y => jsstring_eqb x y
  | _, _ => false
  end.

(** The values for which [v || []] is an array: the arrays, and the
    falsy values ([undefined], [null], [false], [0], the empty string),
    which [||] replaces by [[]]. *)
Definition array_or_falsy (v : value) : bool :=
  match v with
  | JArr _ => true
  | _ => negb (truthy v)
  end.

(** [v || []] as the list of its elements, for [v] an array or a falsy
    value: the elements of the array, and none for a falsy value.  For
    any other [v] (a non-empty string, a number but 0, [true], an object)
    the source keeps [v] itself, which is no array, and the next render
    throws a TypeError; the state of this model keeps lists, so nothing is
    stated about the list kept for such a [v], and the statements about
    [files], [sessions] and [messages] assume [array_or_falsy]. *)
Definition array_or_empty (v : value) : list value :=
  match v with
  | JArr l => l
  | _ => []
  end.

(** WhiteSpace and LineTerminator of ECMAScript, the code units that
    [String.prototype.trim] strips. *)
Definition is_white_space (c : N) : bool :=
  ((c =? 9) || (c =? 10) || (c =? 11) || (c =? 12) || (c =? 13) ||
   (c =? 32) || (c =? 160) || (c =? 5760) ||
   ((8192 <=? c) && (c <=? 8202)) ||
   (c =? 8232) || (c =? 8233) || (c =? 8239) || (c =? 8287) ||
   (c =? 12288) || (c =? 65279))%N.

Fixpoint trim_start (s : jsstring) : jsstring :=
  match s with
  | [] => []
  | c :: rest => if is_white_space c then trim_start rest else s
  end.

Definition trim_end (s : jsstring) : jsstring := rev (trim_start (rev s)).

Definition trim (s : jsstring) : jsstring := trim_end (trim_start s).

(** "Empty or whitespace-only". *)
Definition blank (s : jsstring) : bool := forallb is_white_space s.

(** Decimal rendering of an integer, as a template literal prints it. *)
Definition decimal (z : Z) : jsstring := lit (NilZero.string_of_int (Z.to_int z)).

(** ToString, as a template literal applies it: [null] and [undefined]
    elements of an array print as nothing when the array is joined. *)
Fixpoint to_string (v : value) : jsstring :=
  match v with
  | JUndefined => lit "undefined"
  | JNull => lit "null"
  | JBool true => lit "true"
  | JBool false => lit "false"
  | JNum z => decimal z
  | JStr s => s
  | JArr elems =>
      let element x :=
        match x with
        | JUndefined | JNull => []
        | _ => to_string x
        end in
      (fix join (l : list value) : jsstring :=
         match l with
         | [] => []
         | [x] => element x
         | x :: rest => element x ++ lit "," ++ join rest
         end) elems
  | JObj _ => lit "[object Object]"
  end.

(** [Array.prototype.slice(start, end)]: a negative index counts from the
    end, both indices are clamped to the array, and an empty range gives
    the empty array. *)
Definition slice {A : Type} (l : list A) (start stop : Z) : list A :=
  let len := Z.of_nat (List.length l) in
  let k := if (start <? 0)%Z then Z.max (len + start) 0 else Z.min start len in
  let final := if (stop <? 0)%Z then Z.max (len + stop) 0 else Z.min stop len in
  firstn (Z.to_nat (final - k)) (skipn (Z.to_nat k) l).

(** [Math.ceil(a / b)] for integers [a] and [b > 0]. *)
Definition ceil_div (a b : Z) : Z := (- ((- a) / b))%Z.

End Js.

(* ================================================================== *)
(** ** The component: state, network and the handler monad *)
(* ================================================================== *)

Module Client.
Import Js.

(** The index status the component keeps ([useState] at lines 36-39). *)
Record ChatStatus : Type := mkChatStatus {
  vectorstore_available : value;
  document_count : value }.

(** The state of [DocumentChatApp], one field per [useState] (lines 30-46). *)
Record State : Type := mkState {
  sidebarOpen : bool;
  historyDrawerOpen : bool;
  messages : list value;
  inputMessage : jsstring;
  loading : bool;
  uploadedFiles : list value;
  chatStatus : ChatStatus;
  dragOver : bool;
  notification : value;
  copiedIndex : value;
  typingDots : Z;
  currentPage : Z;
  chatSessions : list value;
  currentSessionId : value }.

Definition initialState : State :=
  {| sidebarOpen := true; historyDrawerOpen := false; messages := [];
     inputMessage := []; loading := false; uploadedFiles := [];
     chatStatus := mkChatStatus (JBool false) (JNum 0);
     dragOver := false; notification := JStr []; copiedIndex := JNull;
     typingDots := 0; currentPage := 0; chatSessions := [];
     currentSessionId := JNull |}.

(** *** Requests and responses *)

Inductive Method : Type := GET | POST | DELETE.

(** The paths under [API_BASE] the component calls. *)
Inductive Endpoint : Type :=
| DocumentsList
| DocumentsUpload
| DocumentsDelete (filename : value)
| DocumentsReprocess
| ChatStatusPath
| ChatSessions
| ChatSession (sessionId : value)
| ChatNewSession
| ChatQuery
| ChatRefreshVectorstore.

Record File : Type := mkFile { file_name : jsstring; file_bytes : list N }.

(** The body of a request: none, the object given to [JSON.stringify], or
    a [FormData] carrying one file. *)
Inductive Body : Type :=
| NoBody
| JsonBody (v : value)
| FormBody (file : File).

Record Request : Type := mkRequest {
  method : Method;
  endpoint : Endpoint;
  body : Body }.

(** A response: its status and what [response.json()] gives ([None] when
    the body is not JSON and [json()] rejects). *)
Record Response : Type := mkResponse {
  status : Z;
  json_body : option value }.

(** [response.ok] *)
Definition ok (r : Response) : bool :=
  ((200 <=? status r) && (status r <=? 299))%Z.

(** What [fetch] does with a request: the promise rejects (the network
    failed) or resolves to a response. *)
Inductive FetchResult : Type :=
| Rejected (message : jsstring)
| Resolved (r : Response).

Definition Network : Type := Request -> FetchResult.

(** Exceptions that reach a [catch]. *)
Inductive Exception : Type :=
| FetchError (message : jsstring)      (* fetch rejected *)
| SyntaxError                          (* response.json() rejected *)
| TypeError                            (* property read on null/undefined *)
| HttpError (status : Z).              (* thrown by checkChatStatus *)

(** [error.message]; the text of a SyntaxError and of a TypeError is the
    engine's own, and one text stands for each. *)
Definition error_message (e : Exception) : jsstring :=
  match e with
  | FetchError m => m
  | SyntaxError => lit "Unexpected token in JSON"
  | TypeError => lit "Cannot read properties of null"
  | HttpError s => lit "HTTP error! status: " ++ decimal s
  end.

(** The calls a handler makes that are visible outside the state. *)
Inductive Effect : Type :=
| Fetch (r : Request)
| ShowNotification (message : value)
| ConsoleError (e : Exception)
| ConsoleWarn (e : Exception)
| ClipboardWrite (text : value)
| PreventDefault.

Record World : Type := mkWorld {
  state : State;
  trace : list Effect }.

Inductive Outcome (A : Type) : Type :=
| Done (a : A)
| Throw (e : Exception).
Arguments Done {A} a.
Arguments Throw {A} e.

(** A computation runs on the current state, extends the trace and
    returns or throws. *)
Definition M (A : Type) : Type := World -> Outcome A * World.

Definition ret {A} (a : A) : M A := fun w => (Done a, w).

Definition bind {A B} (m : M A) (k : A -> M B) : M B :=
  fun w => match m w with
           | (Done a, w') => k a w'
           | (Throw e, w') => (Throw e, w')
           end.

Definition throw {A} (e : Exception) : M A := fun w => (Throw e, w).

Notation "x <- m ;; k" := (bind m (fun x => k))
  (at level 61, m at next level, right associativity).
Notation "m ;; k" := (bind m (fun _ => k))
  (at level 61, right associativity).

(** [try { body } catch (error) { handler }] *)
Definition try_catch {A} (body : M A) (handler : Exception -> M A) : M A :=
  fun w => match body w with
           | (Done a, w') => (Done a, w')
           | (Throw e, w') => handler e w'
           end.

(** [try { body } finally { fin }] *)
Definition finally {A} (body : M A) (fin : M unit) : M A :=
  fun w => match body w with
           | (r, w') => match fin w' with
                        | (Done _, w'') => (r, w'')
                        | (Throw e, w'') => (Throw e, w'')
                        end
           end.

(** An async function called without [await]: it runs (here at once, to
    its end) and nothing it throws reaches the caller. *)
Definition spawn (m : M unit) : M unit :=
  fun w => (Done tt, snd (m w)).

Definition emit (e : Effect) : M unit :=
  fun w => (Done tt, mkWorld (state w) (trace w ++ [e])).

Definition modify (f : State -> State) : M unit :=
  fun w => (Done tt, mkWorld (f (state w)) (trace w)).

(** *** State setters ([setMessages], [setLoading], ...) *)

Definition with_sidebarOpen (v : bool) (s : State) : State :=
  mkState v (historyDrawerOpen s) (messages s) (inputMessage s) (loading s)
    (uploadedFiles s) (chatStatus s) (dragOver s) (notification s)
    (copiedIndex s) (typingDots s) (currentPage s) (chatSessions s)
    (currentSessionId s).
Definition with_historyDrawerOpen (v : bool) (s : State) : State :=
  mkState (sidebarOpen s) v (messages s) (inputMessage s) (loading s)
    (uploadedFiles s) (chatStatus s) (dragOver s) (notification s)
    (copiedIndex s) (typingDots s) (currentPage s) (chatSessions s)
    (currentSessionId s).
Definition with_messages (v : list value) (s : State) : State :=
  mkState (sidebarOpen s) (historyDrawerOpen s) v (inputMessage s) (loading s)
    (uploadedFiles s) (chatStatus s) (dragOver s) (notification s)
    (copiedIndex s) (typingDots s) (currentPage s) (chatSessions s)
    (currentSessionId s).
Definition with_inputMessage (v : jsstring) (s : State) : State :=
  mkState (sidebarOpen s) (historyDrawerOpen s) (messages s) v (loading s)
    (uploadedFiles s) (chatStatus s) (dragOver s) (notification s)
    (copiedIndex s) (typingDots s) (currentPage s) (chatSessions s)
    (currentSessionId s).
Definition with_loading (v : bool) (s : State) : State :=
  mkState (sidebarOpen s) (historyDrawerOpen s) (messages s) (inputMessage s) v
    (uploadedFiles s) (chatStatus s) (dragOver s) (notification s)
    (copiedIndex s) (typingDots s) (currentPage s) (chatSessions s)
    (currentSessionId s).
Definition with_uploadedFiles (v : list value) (s : State) : State :=
  mkState (sidebarOpen s) (historyDrawerOpen s) (messages s) (inputMessage s)
    (loading s) v (chatStatus s) (dragOver s) (notification s)
    (copiedIndex s) (typingDots s) (currentPage s) (chatSessions s)
    (currentSessionId s).
Definition with_chatStatus (v : ChatStatus) (s : State) : State :=
  mkState (sidebarOpen s) (historyDrawerOpen s) (messages s) (inputMessage s)
    (loading s) (uploadedFiles s) v (dragOver s) (notification s)
    (copiedIndex s) (typingDots s) (currentPage s) (chatSessions s)
    (currentSessionId s).
Definition with_dragOver (v : bool) (s : State) : State :=
  mkState (sidebarOpen s) (historyDrawerOpen s) (messages s) (inputMessage s)
    (loading s) (uploadedFiles s) (chatStatus s) v (notification s)
    (copiedIndex s) (typingDots s) (currentPage s) (chatSessions s)
    (currentSessionId s).
Definition with_notification (v : value) (s : State) : State :=
  mkState (sidebarOpen s) (historyDrawerOpen s) (messages s) (inputMessage s)
    (loading s) (uploadedFiles s) (chatStatus s) (dragOver s) v
    (copiedIndex s) (typingDots s) (currentPage s) (chatSessions s)
    (currentSessionId s).
Definition with_copiedIndex (v : value) (s : State) : State :=
  mkState (sidebarOpen s) (historyDrawerOpen s) (messages s) (inputMessage s)
    (loading s) (uploadedFiles s) (chatStatus s) (dragOver s) (notification s)
    v (typingDots s) (currentPage s) (chatSessions s) (currentSessionId s).
Definition with_currentPage (v : Z) (s : State) : State :=
  mkState (sidebarOpen s) (historyDrawerOpen s) (messages s) (inputMessage s)
    (loading s) (uploadedFiles s) (chatStatus s) (dragOver s) (notification s)
    (copiedIndex s) (typingDots s) v (chatSessions s) (currentSessionId s).
Definition with_chatSessions (v : list value) (s : State) : State :=
  mkState (sidebarOpen s) (historyDrawerOpen s) (messages s) (inputMessage s)
    (loading s) (uploadedFiles s) (chatStatus s) (dragOver s) (notification s)
    (copiedIndex s) (typingDots s) (currentPage s) v (currentSessionId s).
Definition with_currentSessionId (v : value) (s : State) : State :=
  mkState (sidebarOpen s) (historyDrawerOpen s) (messages s) (inputMessage s)
    (loading s) (uploadedFiles s) (chatStatus s) (dragOver s) (notification s)
    (copiedIndex s) (typingDots s) (currentPage s) (chatSessions s) v.

Definition setSidebarOpen (v : bool) : M unit := modify (with_sidebarOpen v).
Definition setHistoryDrawerOpen (v : bool) : M unit :=
  modify (with_historyDrawerOpen v).
(** [setMessages] takes an updater, as in [setMessages((prev) => ...)]. *)
Definition setMessages (f : list value -> list value) : M unit :=
  modify (fun s => with_messages (f (messages s)) s).
Definition setInputMessage (v : jsstring) : M unit := modify (with_inputMessage v).
Definition setLoading (v : bool) : M unit := modify (with_loading v).
Definition setUploadedFiles (v : list value) : M unit :=
  modify (with_uploadedFiles v).
Definition setChatStatus (v : ChatStatus) : M unit := modify (with_chatStatus v).
Definition setDragOver (v : bool) : M unit := modify (with_dragOver v).
Definition setNotification (v : value) : M unit := modify (with_notification v).
Definition setCopiedIndex (v : value) : M unit := modify (with_copiedIndex v).
Definition setCurrentPage (v : Z) : M unit := modify (with_currentPage v).
Definition setChatSessions (v : list value) : M unit :=
  modify (with_chatSessions v).
Definition setCurrentSessionId (v : value) : M unit :=
  modify (with_currentSessionId v).

(** *** Pagination of the file list (lines 51-56) *)

Definition filesPerPage : Z := 2.

Definition totalPages (s : State) : Z :=
  ceil_div (Z.of_nat (List.length (uploadedFiles s))) filesPerPage.

Definition currentFiles (s : State) : list value :=
  slice (uploadedFiles s)
        (currentPage s * filesPerPage) ((currentPage s + 1) * filesPerPage).

(** The effect "reset pagination when files change" (lines 84-88), run on
    the state it was rendered with. *)
Definition resetPagination (s : State) : State :=
  if (totalPages s <=? currentPage s)%Z && (0 <? totalPages s)%Z
  then with_currentPage (totalPages s - 1) s
  else s.

(* ================================================================== *)
(** ** The handlers of the component *)
(* ================================================================== *)

Section Handlers.

(** The server and the network between it and the component. *)
Variable net : Network.

(** [await fetch(url, options)] *)
Definition fetch (r : Request) : M Response :=
  emit (Fetch r) ;;
  match net r with
  | Rejected m => throw (FetchError m)
  | Resolved resp => ret resp
  end.

(** [await response.json()] *)
Definition json (r : Response) : M value :=
  match json_body r with
  | Some v => ret v
  | None => throw SyntaxError
  end.

(** [data.name] *)
Definition prop (data : value) (name : string) : M value :=
  match get data (lit name) with
  | Some v => ret v
  | None => throw TypeError
  end.

(** [showNotification] (lines 346-349): sets the notification text; the
    timer that clears it three seconds later is not part of a handler's
    run. *)
Definition showNotification (message : value) : M unit :=
  emit (ShowNotification message) ;;
  setNotification message.

(** [loadUploadedFiles] (lines 91-99) *)
Definition loadUploadedFiles : M unit :=
  try_catch
    (response <- fetch (mkRequest GET DocumentsList NoBody) ;;
     data <- json response ;;
     files <- prop data "files" ;;
     setUploadedFiles (array_or_empty files))
    (fun _ => showNotification (str "Error loading files")).

(** [checkChatStatus] (lines 101-159) *)
Definition checkChatStatus : M unit :=
  try_catch
    (response <- fetch (mkRequest GET ChatStatusPath NoBody) ;;
     (if negb (ok response) then throw (HttpError (status response))
      else ret tt) ;;
     data <- json response ;;
     available <- prop data "vectorstore_available" ;;
     count <- prop data "document_count" ;;
     let validatedData :=
       {| vectorstore_available := or_else available (JBool false);
          document_count := or_else count (JNum 0) |} in
     setChatStatus validatedData)
    (fun error =>
       emit (ConsoleError error) ;;
       setChatStatus {| vectorstore_available := JBool false;
                        document_count := JNum 0 |} ;;
       showNotification (str "Unable to check system status")).

(** [loadChatSessions] (lines 161-169) *)
Definition loadChatSessions : M unit :=
  try_catch
    (response <- fetch (mkRequest GET ChatSessions NoBody) ;;
     data <- json response ;;
     sessions <- prop data "sessions" ;;
     setChatSessions (array_or_empty sessions))
    (fun error => emit (ConsoleError error)).

(** [loadChatSession] (lines 171-180) *)
Definition loadChatSession (sessionId : value) : M unit :=
  try_catch
    (response <- fetch (mkRequest GET (ChatSession sessionId) NoBody) ;;
     data <- json response ;;
     msgs <- prop data "messages" ;;
     setMessages (fun _ => array_or_empty msgs) ;;
     setCurrentSessionId sessionId)
    (fun _ => showNotification (str "Error loading chat session")).

(** [createNewChat] (lines 182-210).  [s] is the state the handler was
    rendered with: the values its closure reads. *)
Definition createNewChat (s : State) : M unit :=
  if truthy (currentSessionId s) && (List.length (messages s) =? 0)%nat then
    showNotification (str "You already have an empty chat open")
  else
    try_catch
      (response <- fetch (mkRequest POST ChatNewSession
                            (JsonBody (JObj [(lit "title", str "New Chat")]))) ;;
       data <- json response ;;
       if ok response then
         setMessages (fun _ => []) ;;
         session_id <- prop data "session_id" ;;
         setCurrentSessionId session_id ;;
         spawn loadChatSessions ;;
         showNotification (str "New chat created")
       else ret tt)
      (fun _ => showNotification (str "Error creating new chat")).

(** [deleteChatSession] (lines 212-229) *)
Definition deleteChatSession (s : State) (sessionId : value) : M unit :=
  try_catch
    (response <- fetch (mkRequest DELETE (ChatSession sessionId) NoBody) ;;
     if ok response then
       spawn loadChatSessions ;;
       (if strict_eq (currentSessionId s) sessionId then
          setMessages (fun _ => []) ;;
          setCurrentSessionId JNull
        else ret tt) ;;
       showNotification (str "Chat session deleted")
     else ret tt)
    (fun _ => showNotification (str "Error deleting session")).

(** [uploadFile] (lines 231-265) *)
Definition uploadFile (file : File) : M unit :=
  setLoading true ;;
  finally
    (try_catch
       (response <- fetch (mkRequest POST DocumentsUpload (FormBody file)) ;;
        data <- json response ;;
        if ok response then
          showNotification
            (JStr (lit "File " ++ file_name file ++ lit " uploaded successfully!")) ;;
          spawn loadUploadedFiles ;;
          spawn checkChatStatus ;;
          try_catch
            (_ <- fetch (mkRequest POST ChatRefreshVectorstore NoBody) ;; ret tt)
            (fun refreshError => emit (ConsoleWarn refreshError))
        else
          detail <- prop data "detail" ;;
          showNotification (or_else detail (str "Upload failed")))
       (fun error =>
          showNotification (JStr (lit "Upload error: " ++ error_message error))))
    (setLoading false).

(** [sendMessage] (lines 267-306) *)
Definition sendMessage (s : State) : M unit :=
  if negb (truthy (JStr (trim (inputMessage s)))) || loading s then ret tt
  else
    let userMessage :=
      JObj [(lit "role", str "user"); (lit "content", JStr (inputMessage s))] in
    setMessages (fun prev => prev ++ [userMessage]) ;;
    setInputMessage [] ;;
    setLoading true ;;
    finally
      (try_catch
         (response <- fetch (mkRequest POST ChatQuery
                     (JsonBody (JObj [(lit "message", JStr (inputMessage s));
                                      (lit "session_id", currentSessionId s)]))) ;;
          data <- json response ;;
          if ok response then
            content <- prop data "response" ;;
            sources <- prop data "source_documents" ;;
            let assistantMessage :=
              JObj [(lit "role", str "assistant");
                    (lit "content", content);
                    (lit "sources", sources)] in
            setMessages (fun prev => prev ++ [assistantMessage]) ;;
            session_id <- prop data "session_id" ;;
            setCurrentSessionId session_id ;;
            spawn loadChatSessions
          else
            detail <- prop data "detail" ;;
            showNotification (or_else detail (str "Failed to get response")))
         (fun error =>
            showNotification (JStr (lit "Chat error: " ++ error_message error))))
      (setLoading false).

(** [deleteFile] (lines 308-324) *)
Definition deleteFile (filename : value) : M unit :=
  try_catch
    (response <- fetch (mkRequest DELETE (DocumentsDelete filename) NoBody) ;;
     if ok response then
       showNotification
         (JStr (lit "File " ++ to_string filename ++ lit " deleted")) ;;
       spawn loadUploadedFiles ;;
       spawn checkChatStatus
     else showNotification (str "Failed to delete file"))
    (fun error =>
       showNotification (JStr (lit "Delete error: " ++ error_message error))).

(** [reprocessDocuments] (lines 326-344) *)
Definition reprocessDocuments : M unit :=
  setLoading true ;;
  finally
    (try_catch
       (response <- fetch (mkRequest POST DocumentsReprocess NoBody) ;;
        if ok response then
          showNotification (str "Documents reprocessed successfully!") ;;
          spawn checkChatStatus
        else showNotification (str "Failed to reprocess documents"))
       (fun error =>
          showNotification
            (JStr (lit "Reprocess error: " ++ error_message error))))
    (setLoading false).

(** [files.forEach(uploadFile)] of [handleFileSelect] and [handleDrop]:
    the uploads, one after the other. *)
Fixpoint uploadFiles (files : list File) : M unit :=
  match files with
  | [] => ret tt
  | f :: rest => spawn (uploadFile f) ;; uploadFiles rest
  end.

(** [handleKeyPress] (lines 374-379) *)
Definition handleKeyPress (s : State) (key : jsstring) (shiftKey : bool) : M unit :=
  if jsstring_eqb key (lit "Enter") && negb shiftKey then
    emit PreventDefault ;;
    spawn (sendMessage s)
  else ret tt.

(** [copyToClipboard] (lines 381-386) *)
Definition copyToClipboard (text index : value) : M unit :=
  emit (ClipboardWrite text) ;;
  setCopiedIndex index ;;
  showNotification (str "Copied to clipboard!").

(** *** The user interface: events, when they can fire, what they call *)

Inductive UiEvent : Type :=
| ClickNewChat                                   (* line 482 *)
| ClickUpload                                    (* lines 512, 833 *)
| SelectFiles (files : list File)                (* line 521 *)
| ClickReprocess                                 (* line 548 *)
| ClickPrevPage                                  (* line 567 *)
| ClickNextPage                                  (* line 577 *)
| ClickDeleteFile (filename : value)             (* line 609 *)
| ToggleSidebar                                  (* line 656 *)
| ToggleHistory                                  (* line 677 *)
| DragOverEvent                                  (* lines 708, 725 *)
| DragLeaveEvent                                 (* lines 709, 726 *)
| DropFiles (files : list File)                  (* lines 710, 727 *)
| ClickCopy (text index : value)                 (* line 792 *)
| ChangeInput (text : jsstring)                  (* line 841 *)
| KeyPressInput (key : jsstring) (shiftKey : bool) (* line 842 *)
| ClickSend                                      (* line 859 *)
| ClickSession (sessionId : value)               (* line 901 *)
| ClickDeleteSession (sessionId : value).        (* line 911 *)

(** The [disabled] attribute of the message box (line 848). *)
Definition inputDisabled (s : State) : bool :=
  negb (truthy (vectorstore_available (chatStatus s))) || loading s.

(** The [disabled] attribute of the send button (lines 860-864). *)
Definition sendDisabled (s : State) : bool :=
  negb (truthy (JStr (trim (inputMessage s)))) ||
  negb (truthy (vectorstore_available (chatStatus s))) ||
  loading s.

(** The [disabled] attribute of the reprocess button (line 549). *)
Definition reprocessDisabled (s : State) : bool :=
  loading s || (List.length (uploadedFiles s) =? 0)%nat.

(** Whether the rendered page delivers an event: a disabled control fires
    no event, and the page buttons exist only when [totalPages > 1]
    (line 564). *)
Definition deliverable (s : State) (ev : UiEvent) : bool :=
  match ev with
  | ClickReprocess => negb (reprocessDisabled s)
  | ClickPrevPage => (1 <? totalPages s)%Z && negb (currentPage s =? 0)%Z
  | ClickNextPage =>
      (1 <? totalPages s)%Z && negb (currentPage s =? totalPages s - 1)%Z
  | ChangeInput _ | KeyPressInput _ _ => negb (inputDisabled s)
  | ClickSend => negb (sendDisabled s)
  | _ => true
  end.

(** The handler each event is bound to. *)
Definition handler (s : State) (ev : UiEvent) : M unit :=
  match ev with
  | ClickNewChat => spawn (createNewChat s)
  | ClickUpload => ret tt
  | SelectFiles files => uploadFiles files
  | ClickReprocess => spawn reprocessDocuments
  | ClickPrevPage => setCurrentPage (Z.max 0 (currentPage s - 1))
  | ClickNextPage =>
      setCurrentPage (Z.min (totalPages s - 1) (currentPage s + 1))
  | ClickDeleteFile filename => spawn (deleteFile filename)
  | ToggleSidebar => setSidebarOpen (negb (sidebarOpen s))
  | ToggleHistory => setHistoryDrawerOpen (negb (historyDrawerOpen s))
  | DragOverEvent => emit PreventDefault ;; setDragOver true
  | DragLeaveEvent => emit PreventDefault ;; setDragOver false
  | DropFiles files =>
      emit PreventDefault ;; setDragOver false ;; uploadFiles files
  | ClickCopy text index => copyToClipboard text index
  | ChangeInput text => setInputMessage text
  | KeyPressInput key shiftKey => handleKeyPress s key shiftKey
  | ClickSend => spawn (sendMessage s)
  | ClickSession sessionId => spawn (loadChatSession sessionId)
  | ClickDeleteSession sessionId => spawn (deleteChatSession s sessionId)
  end.

(** Running a computation from a state, with an empty trace. *)
Definition run {A} (m : M A) (s : State) : Outcome A * World :=
  m (mkWorld s []).

Definition final {A} (m : M A) (s : State) : State := state (snd (run m s)).
Definition calls {A} (m : M A) (s : State) : list Effect := trace (snd (run m s)).

(** One step of the interface: an event on the rendered state, its
    handler, then the pagination effect on the new state. *)
Definition step (s : State) (ev : UiEvent) : State * list Effect :=
  if deliverable s ev then
    (resetPagination (final (handler s ev) s), calls (handler s ev) s)
  else (s, []).

(** The requests among the calls made. *)
Fixpoint requests (t : list Effect) : list Request :=
  match t with
  | [] => []
  | Fetch r :: rest => r :: requests rest
  | _ :: rest => requests rest
  end.

(** The notifications among the calls made. *)
Fixpoint notifications (t : list Effect) : list value :=
  match t with
  | [] => []
  | ShowNotification m :: rest => m :: notifications rest
  | _ :: rest => notifications rest
  end.

Definition is_chat_query (r : Request) : bool :=
  match method r, endpoint r with
  | POST, ChatQuery => true
  | _, _ => false
  end.

End Handlers.

(** *** Vocabulary of the statements *)

(** The requests the handlers build. *)
Definition newSessionRequest : Request :=
  mkRequest POST ChatNewSession (JsonBody (JObj [(lit "title", str "New Chat")])).

Definition queryRequest (s : State) : Request :=
  mkRequest POST ChatQuery
    (JsonBody (JObj [(lit "message", JStr (inputMessage s));
                     (lit "session_id", currentSessionId s)])).

Definition uploadRequest (file : File) : Request :=
  mkRequest POST DocumentsUpload (FormBody file).

Definition refreshRequest : Request := mkRequest POST ChatRefreshVectorstore NoBody.
Definition listRequest : Request := mkRequest GET DocumentsList NoBody.
Definition statusRequest : Request := mkRequest GET ChatStatusPath NoBody.
Definition sessionsRequest : Request := mkRequest GET ChatSessions NoBody.

(** A response with a 2xx status and a JSON body [data]. *)
Definition succeeds (net : Network) (r : Request) (data : value) : Prop :=
  exists resp, net r = Resolved resp /\ ok resp = true /\ json_body resp = Some data.

(** A body whose properties can be read: anything but [null]. *)
Definition readable (data : value) : Prop := data <> JNull /\ data <> JUndefined.

(** [data.name] of a readable body. *)
Definition field (data : value) (name : string) : value :=
  match get data (lit name) with
  | Some v => v
  | None => JUndefined
  end.

(** The messages [sendMessage] builds. *)
Definition userMessage (txt : jsstring) : value :=
  JObj [(lit "role", str "user"); (lit "content", JStr txt)].

Definition assistantMessage (content sources : value) : value :=
  JObj [(lit "role", str "assistant"); (lit "content", content);
        (lit "sources", sources)].

(** A computation preserves a property of the world. *)
Definition preserves {A : Type} (I : World -> Prop) (m : M A) : Prop :=
  forall w, I w -> I (snd (m w)).

(** A computation leaves an observation [f] of the state as it was. *)
Definition keeps {A B : Type} (f : State -> B) (m : M A) : Prop :=
  forall w, f (state (snd (m w))) = f (state w).

(** A computation sends no request that [p] selects. *)
Definition sends_no {A : Type} (p : Request -> bool) (m : M A) : Prop :=
  forall w, filter p (requests (trace (snd (m w)))) = filter p (requests (trace w)).


(** The status has the types of the interface. *)
Definition well_formed (st : ChatStatus) : Prop :=
  (exists b, vectorstore_available st = JBool b) /\
  (exists n, document_count st = JNum n).

(** Both fields of the status are there: neither is [undefined] or
    [null]. *)
Definition defined (v : value) : Prop := v <> JUndefined /\ v <> JNull.
Definition complete (st : ChatStatus) : Prop :=
  defined (vectorstore_available st) /\ defined (document_count st).

(** A status field as the interface allows it to arrive: of the right
    type, or missing. *)
Definition boolean_or_missing (v : value) : Prop :=
  v = JUndefined \/ v = JNull \/ exists b, v = JBool b.
Definition number_or_missing (v : value) : Prop :=
  v = JUndefined \/ v = JNull \/ exists n, v = JNum n.

(** The server keeps to the interface of GET /chat/status. *)
Definition status_typed (net : Network) : Prop :=
  forall resp fields,
    net statusRequest = Resolved resp ->
    json_body resp = Some (JObj fields) ->
    boolean_or_missing (lookup (lit "vectorstore_available") fields) /\
    number_or_missing (lookup (lit "document_count") fields).

Definition defaultStatus : ChatStatus :=
  {| vectorstore_available := JBool false; document_count := JNum 0 |}.

(** *** The typing animation (lines 66-74 and 445-456) *)

Definition with_typingDots (v : Z) (s : State) : State :=
  mkState (sidebarOpen s) (historyDrawerOpen s) (messages s) (inputMessage s)
    (loading s) (uploadedFiles s) (chatStatus s) (dragOver s) (notification s)
    (copiedIndex s) v (currentPage s) (chatSessions s) (currentSessionId s).

(** The updater of the interval, [(prev) => (prev + 1) % 4]; [%] is the
    remainder that takes the sign of the dividend. *)
Definition nextTypingDots (prev : Z) : Z := Z.rem (prev + 1) 4.

(** One tick of the interval, which runs while [loading] holds. *)
Definition tickTypingDots (s : State) : State :=
  if loading s then with_typingDots (nextTypingDots (typingDots s)) s else s.

(** The dots of [TypingAnimation] shown at full opacity: those of
    [[0, 1, 2]] with [typingDots > dot]. *)
Definition litDots (s : State) : list Z :=
  filter (fun dot => (dot <? typingDots s)%Z) [0; 1; 2]%Z.

(** *** More vocabulary *)

Definition deleteFileRequest (filename : value) : Request :=
  mkRequest DELETE (DocumentsDelete filename) NoBody.
Definition reprocessRequest : Request := mkRequest POST DocumentsReprocess NoBody.
Definition sessionRequest (sessionId : value) : Request :=
  mkRequest GET (ChatSession sessionId) NoBody.
Definition deleteSessionRequest (sessionId : value) : Request :=
  mkRequest DELETE (ChatSession sessionId) NoBody.

Definition is_upload (r : Request) : bool :=
  match method r, endpoint r with
  | POST, DocumentsUpload => true
  | _, _ => false
  end.

Definition is_new_session (r : Request) : bool :=
  match method r, endpoint r with
  | POST, ChatNewSession => true
  | _, _ => false
  end.

Definition any_request (r : Request) : bool := true.

(** The request was answered with a JSON body that can be read, whatever
    the status. *)
Definition answers (net : Network) (r : Request) (data : value) : Prop :=
  exists resp, net r = Resolved resp /\ json_body resp = Some data.

(** The request was answered, whatever the body. *)
Definition answered_ok (net : Network) (r : Request) (b : bool) : Prop :=
  exists resp, net r = Resolved resp /\ ok resp = b.




(** The page with number [p], as the list shows it. *)
Definition pageOf (s : State) (p : nat) : list value :=
  currentFiles (with_currentPage (Z.of_nat p) s).

(** The pages the page buttons lead through. *)
Definition pages (s : State) : list (list value) :=
  map (pageOf s) (seq 0 (Z.to_nat (totalPages s))).

(** The page number is one of a page: not negative, and below
    [totalPages] when there is a page at all. *)
Definition page_settled (s : State) : Prop :=
  (0 <= currentPage s)%Z /\
  ((0 < totalPages s)%Z -> (currentPage s < totalPages s)%Z).

(** The events that belong to the conversation; the others manage
    documents or the layout. *)
Definition chat_event (ev : UiEvent) : bool :=
  match ev with
  | ClickNewChat | ChangeInput _ | KeyPressInput _ _ | ClickSend
  | ClickSession _ | ClickDeleteSession _ => true
  | _ => false
  end.

(** A session of use: events, each met by the network of its moment. *)
Definition steps (script : list (Network * UiEvent)) (s : State) : State :=
  fold_left (fun st x => fst (step (fst x) st (snd x))) script s.

End Client.

(* ================================================================== *)
(** ** The backend behind the interface *)
(* ================================================================== *)

(** Modelled from the spec: the backend (document store, chunker,
    embedding index, ingestion pipeline, session store and query
    orchestrator of sections 3 and 4).  Its code is not among the sources;
    every definition of this module follows the specification's words.
    The external collaborators (text extraction, embedding, similarity,
    generation) and the configuration are the variables of the section;
    the embedding service is asked at the time of the call it serves, and
    its failures can differ from one call to the next. *)
Module Backend.

Open Scope string_scope.

Inductive Status : Type := Pending | Indexed | Failed.

Definition is_indexed (st : Status) : bool :=
  match st with Indexed => true | _ => false end.

(** Modelled from the spec: Document (section 3); [doc_id] is derived from
    the file name, [content] is the raw content [get] returns. *)
Record Document : Type := mkDocument {
  doc_id : string;
  filename : string;
  upload_time : nat;
  byte_size : nat;
  status : Status;
  content : list Byte.byte }.

(** Modelled from the spec: the id of a chunk (section 3), taken as the
    owning document's id with the chunk's position. *)
Definition ChunkId : Type := (string * nat)%type.

Definition chunk_id_eqb (a b : ChunkId) : bool :=
  (fst a =? fst b) && (snd a =? snd b)%nat.

(** Modelled from the spec: Chunk (section 3). *)
Record Chunk : Type := mkChunk {
  chunk_id : ChunkId;
  document_id : string;
  sequence_index : nat;
  text : string;
  char_offset_range : nat * nat }.

Inductive Role : Type := User | Assistant.

(** Modelled from the spec: Message (section 3); a source is a document
    reference with its relevance score. *)
Record Message : Type := mkMessage {
  role : Role;
  message_content : string;
  sources : list (string * Z) }.

(** Modelled from the spec: Session (section 3). *)
Record Session : Type := mkSession {
  session_id : nat;
  title : string;
  created_at : nat;
  last_updated : nat;
  session_messages : list Message }.

(** Modelled from the spec: the error taxonomy of section 7, with the
    failures of sections 4.1 and 5. *)
Inductive Error : Type :=
| NotFound
| DuplicateName
| UnsupportedFormat
| EmbeddingServiceError
| NoDocumentsIndexed
| EmbeddingModelMismatch
| GenerationServiceError.

Inductive Result (A : Type) : Type :=
| Ok (a : A)
| Err (e : Error).
Arguments Ok {A} a.
Arguments Err {A} e.

(** Modelled from the spec: the capacity cap of the session store. *)
Definition session_cap : nat := 50.

Section Engine.

(** Fixed-dimension vectors and the external collaborators. *)
Variable Vector : Type.
(** Text extraction; [None] is an unsupported format. *)
Variable decode : string -> list Byte.byte -> option string.
(** The chunker: a pure function of the text, giving each passage with
    its character range. *)
Variable split : string -> list (string * (nat * nat)).
(** The embedding service, asked at a time (the clock of the backend
    when the call arrives); [None] is a failure of the call: an error of
    the service or a timeout, retries exhausted.  Failures are transient:
    the service can fail for a text at one time and answer at another. *)
Variable embed : nat -> string -> option Vector.
(** The identifier of the embedding model in use. *)
Variable model : string.
(** The similarity of a query vector and a stored vector. *)
Variable score : Vector -> Vector -> Z.
(** Prompt assembly from retrieved texts, recent messages and the query. *)
Variable assemble : list string -> list Message -> string -> string.
(** The generation service; [None] is a failure or a timeout. *)
Variable generate : string -> option string.
(** Retrieval depth, history window and the title of a session a query
    opens. *)
Variable retrieval_k : nat.
Variable history_window : nat.
Variable default_title : string.

(** Modelled from the spec: Embedding (section 3), with the model tag of
    section 4.6. *)
Record Embedding : Type := mkEmbedding {
  embedding_chunk_id : ChunkId;
  vector : Vector;
  model_tag : string }.

(** Modelled from the spec: the state of the backend: the document store
    (documents and their chunks), the embedding index in insertion order,
    the session store, a clock, and the prompts sent to the generation
    service so far. *)
Record Backend : Type := mkBackend {
  documents : list Document;
  chunks : list Chunk;
  index : list Embedding;
  sessions : list Session;
  next_session_id : nat;
  now : nat;
  generation_calls : list string }.

Definition empty : Backend := mkBackend [] [] [] [] 0 0 [].

(** *** Embedding index (section 4.3) *)

(** Modelled from the spec: [upsert] inserts or replaces. *)
Fixpoint upsert (e : Embedding) (idx : list Embedding) : list Embedding :=
  match idx with
  | [] => [e]
  | x :: rest =>
      if chunk_id_eqb (embedding_chunk_id x) (embedding_chunk_id e)
      then e :: rest
      else x :: upsert e rest
  end.

Definition upsert_all (es idx : list Embedding) : list Embedding :=
  fold_left (fun i e => upsert e i) es idx.

(** Modelled from the spec: [remove] deletes the entries of the given
    chunk ids. *)
Definition remove (ids : list ChunkId) (idx : list Embedding) : list Embedding :=
  filter (fun e => negb (existsb (chunk_id_eqb (embedding_chunk_id e)) ids)) idx.

(** Modelled from the spec: the ranking of [search] (4.3), a stable
    insertion by descending score: among equal scores the entry inserted
    first stays first. *)
Fixpoint insert_ranked (x : ChunkId * Z) (l : list (ChunkId * Z)) : list (ChunkId * Z) :=
  match l with
  | [] => [x]
  | y :: rest =>
      if (snd y <=? snd x)%Z then x :: y :: rest
      else y :: insert_ranked x rest
  end.

Definition rank (l : list (ChunkId * Z)) : list (ChunkId * Z) :=
  fold_right insert_ranked [] l.

(** Modelled from the spec: [search] gives the [k] best entries, ranked by
    descending similarity, ties in insertion order. *)
Definition search (q : Vector) (k : nat) (idx : list Embedding) : list (ChunkId * Z) :=
  firstn k (rank (map (fun e => (embedding_chunk_id e, score q (vector e))) idx)).

(** Modelled from the spec: [rebuild] replaces the index by one built
    from nothing. *)
Definition rebuild (es : list Embedding) : list Embedding := upsert_all es [].

Definition is_available (idx : list Embedding) : bool :=
  match idx with [] => false | _ => true end.


(** Modelled from the spec: VectorStoreStatus (section 3), derived. *)
Record VectorStoreStatus : Type := mkStatus {
  available : bool;
  status_document_count : nat }.

Definition vector_store_status (b : Backend) : VectorStoreStatus :=
  {| available := is_available (index b);
     status_document_count :=
       List.length (filter (fun d => is_indexed (status d)) (documents b)) |}.

(** *** Ingestion pipeline (sections 4.2 and 4.4) *)

Definition with_status (st : Status) (d : Document) : Document :=
  mkDocument (doc_id d) (filename d) (upload_time d) (byte_size d) st (content d).

Definition make_chunks (id : string) (pieces : list (string * (nat * nat))) : list Chunk :=
  map (fun p => mkChunk (id, fst p) id (fst p) (fst (snd p)) (snd (snd p)))
      (combine (seq 0 (List.length pieces)) pieces).

(** Modelled from the spec: embedding of the chunks (4.3, 4.4) by the
    service as it answers at time [t]; a chunk whose embedding fails is
    skipped, the others are kept. *)
Fixpoint embed_chunks (t : nat) (cs : list Chunk) : list Embedding :=
  match cs with
  | [] => []
  | c :: rest =>
      match embed t (text c) with
      | Some v => mkEmbedding (chunk_id c) v model :: embed_chunks t rest
      | None => embed_chunks t rest
      end
  end.

Definition all_embedded (t : nat) (cs : list Chunk) : bool :=
  forallb (fun c => match embed t (text c) with Some _ => true | None => false end) cs.

(** Modelled from the spec: the chunks of a document (4.4, steps 1 and
    2): its decoded text, split. *)
Definition chunks_of (d : Document) : list Chunk :=
  match decode (filename d) (content d) with
  | None => []
  | Some txt => make_chunks (doc_id d) (split txt)
  end.

(** Modelled from the spec: the pipeline on one document, run at time
    [t]: decode, chunk, embed; the document ends [Indexed], or [Failed]
    with the error.  A document one of whose chunks could not be embedded
    is [Failed], and the vectors of its other chunks are kept (4.3: a
    failed chunk is skipped, not fatal to the batch). *)
Definition ingest (t : nat) (d : Document)
  : Document * list Chunk * list Embedding * option Error :=
  match decode (filename d) (content d) with
  | None => (with_status Failed d, [], [], Some UnsupportedFormat)
  | Some txt =>
      let cs := make_chunks (doc_id d) (split txt) in
      if all_embedded t cs
      then (with_status Indexed d, cs, embed_chunks t cs, None)
      else (with_status Failed d, cs, embed_chunks t cs, Some EmbeddingServiceError)
  end.

Definition has_name (name : string) (d : Document) : bool := filename d =? name.

(** Modelled from the spec: upload of one document (4.1 [add], then the
    pipeline): a duplicate name is rejected; the chunks of the new
    document are added to the index incrementally. *)
Definition upload (name : string) (bytes : list Byte.byte) (b : Backend)
  : Result Document * Backend :=
  if existsb (has_name name) (documents b) then (Err DuplicateName, b)
  else
    let d0 := mkDocument name name (now b) (List.length bytes) Pending bytes in
    match ingest (now b) d0 with
    | (d, cs, es, failure) =>
        (match failure with None => Ok d | Some e => Err e end,
         mkBackend (documents b ++ [d]) (chunks b ++ cs)
                   (upsert_all es (index b)) (sessions b)
                   (next_session_id b) (S (now b)) (generation_calls b))
    end.

Definition owned_by (id : string) (c : Chunk) : bool := document_id c =? id.

(** Modelled from the spec: [delete] (4.1): the chunks and embeddings of
    the document go with it, in the same step. *)
Definition delete (name : string) (b : Backend) : Result unit * Backend :=
  match find (has_name name) (documents b) with
  | None => (Err NotFound, b)
  | Some d =>
      let ids := map chunk_id (filter (owned_by (doc_id d)) (chunks b)) in
      (Ok tt,
       mkBackend (filter (fun x => negb (has_name name x)) (documents b))
                 (filter (fun c => negb (owned_by (doc_id d) c)) (chunks b))
                 (remove ids (index b)) (sessions b)
                 (next_session_id b) (S (now b)) (generation_calls b))
  end.

Definition ingest_document (t : nat) (d : Document) : Document :=
  fst (fst (fst (ingest t d))).
Definition ingest_chunks (t : nat) (d : Document) : list Chunk :=
  snd (fst (fst (ingest t d))).
Definition ingest_embeddings (t : nat) (d : Document) : list Embedding :=
  snd (fst (ingest t d)).

(** Modelled from the spec: [reprocess] (4.4): the pipeline over every
    stored document, the index replaced by a rebuilt one; it reports the
    number of documents that failed. *)
Definition reprocess (b : Backend) : nat * Backend :=
  let docs := map (ingest_document (now b)) (documents b) in
  (List.length (filter (fun d => negb (is_indexed (status d))) docs),
   mkBackend docs
             (flat_map (ingest_chunks (now b)) (documents b))
             (rebuild (flat_map (ingest_embeddings (now b)) (documents b)))
             (sessions b) (next_session_id b) (S (now b)) (generation_calls b)).

(** *** Session store (section 4.5) *)

(** Modelled from the spec: the victim of the capacity policy (4.5), the
    least-recently-updated session, the earliest of them in the store
    when several share the time. *)
Fixpoint least_recently_updated (l : list Session) : option Session :=
  match l with
  | [] => None
  | s :: rest =>
      match least_recently_updated rest with
      | None => Some s
      | Some m => if (last_updated s <=? last_updated m)%nat then Some s else Some m
      end
  end.

(** Modelled from the spec: the eviction of the capacity policy (4.5),
    the store without its least-recently-updated session. *)
Fixpoint evict (l : list Session) : list Session :=
  match l with
  | [] => []
  | s :: rest =>
      match least_recently_updated rest with
      | None => []
      | Some m => if (last_updated s <=? last_updated m)%nat then rest
                  else s :: evict rest
      end
  end.

(** Modelled from the spec: [create] (4.5) with the capacity policy: when
    the count would exceed the cap, the least-recently-updated session
    is evicted before the new one is created. *)
Definition create (ttl : string) (b : Backend) : Session * Backend :=
  let kept :=
    if (session_cap <=? List.length (sessions b))%nat
    then evict (sessions b) else sessions b in
  let s := mkSession (next_session_id b) ttl (now b) (now b) [] in
  (s, mkBackend (documents b) (chunks b) (index b) (kept ++ [s])
                (S (next_session_id b)) (S (now b)) (generation_calls b)).

Definition has_id (id : nat) (s : Session) : bool := (session_id s =? id)%nat.

(** Modelled from the spec: [get] of a session (4.5). *)
Definition get_session (id : nat) (b : Backend) : Result Session :=
  match find (has_id id) (sessions b) with
  | Some s => Ok s
  | None => Err NotFound
  end.

Definition append_to (id : nat) (time : nat) (m : Message) (s : Session) : Session :=
  if has_id id s
  then mkSession (session_id s) (title s) (created_at s) time
                 (session_messages s ++ [m])
  else s.

(** Modelled from the spec: [append_message] (4.5) updates
    [last_updated]. *)
Definition append_message (id : nat) (m : Message) (b : Backend) : Result unit * Backend :=
  match find (has_id id) (sessions b) with
  | None => (Err NotFound, b)
  | Some _ =>
      (Ok tt,
       mkBackend (documents b) (chunks b) (index b)
                 (map (append_to id (now b) m) (sessions b))
                 (next_session_id b) (S (now b)) (generation_calls b))
  end.

(** Modelled from the spec: [delete] of a session (4.5). *)
Definition delete_session (id : nat) (b : Backend) : Backend :=
  mkBackend (documents b) (chunks b) (index b)
            (filter (fun s => negb (has_id id s)) (sessions b))
            (next_session_id b) (S (now b)) (generation_calls b).

(** *** Query orchestrator (section 4.6) *)

Record Answer : Type := mkAnswer {
  response_text : string;
  answer_sources : list (string * Z);
  answer_session_id : nat }.

Definition chunk_text (cs : list Chunk) (id : ChunkId) : string :=
  match find (fun c => chunk_id_eqb (chunk_id c) id) cs with
  | Some c => text c
  | None => ""
  end.

Definition recent (n : nat) (ms : list Message) : list Message :=
  skipn (List.length ms - n) ms.

Definition call_generation (prompt : string) (b : Backend) : Backend :=
  mkBackend (documents b) (chunks b) (index b) (sessions b)
            (next_session_id b) (now b) (generation_calls b ++ [prompt]).

(** Modelled from the spec: [answer], the six steps of section 4.6 in
    their order: the session, the embedding of the query with the check
    of the model tags, the test for an empty index and the retrieval, the
    prompt and the generation, the two messages, the result. *)
Definition answer (query : string) (sid : option nat) (b : Backend)
  : Result Answer * Backend :=
  (* 1: the session, opened when absent or unknown *)
  let opened :=
    match sid with
    | Some id => match find (has_id id) (sessions b) with
                 | Some s => (s, b)
                 | None => create default_title b
                 end
    | None => create default_title b
    end in
  let session := fst opened in
  let b1 := snd opened in
  (* 2: the query embedded by the embedding function of ingestion *)
  match embed (now b) query with
  | None => (Err EmbeddingServiceError, b1)
  | Some qv =>
      if existsb (fun e => negb (model_tag e =? model)) (index b1)
      then (Err EmbeddingModelMismatch, b1)
      else
        (* 3: nothing is retrieved from an empty index *)
        if negb (is_available (index b1)) then (Err NoDocumentsIndexed, b1)
        else
          let hits := search qv retrieval_k (index b1) in
          (* 4: the grounded prompt, sent to the generation service *)
          let prompt :=
            assemble (map (fun h => chunk_text (chunks b1) (fst h)) hits)
                     (recent history_window (session_messages session)) query in
          let b2 := call_generation prompt b1 in
          match generate prompt with
          | None => (Err GenerationServiceError, b2)
          | Some reply =>
              (* 5: the exchange recorded in the session *)
              let srcs := map (fun h => (fst (fst h), snd h)) hits in
              let b3 := snd (append_message (session_id session)
                               (mkMessage User query []) b2) in
              let b4 := snd (append_message (session_id session)
                               (mkMessage Assistant reply srcs) b3) in
              (* 6 *)
              (Ok (mkAnswer reply srcs (session_id session)), b4)
          end
  end.

(** *** Calls on the backend and the states they reach *)

(** Modelled from the spec: the calls of the interface of section 6 that
    change the backend. *)
Inductive Call : Type :=
| Upload (name : string) (bytes : list Byte.byte)
| Delete (name : string)
| Reprocess
| NewSession (ttl : string)
| DeleteSession (id : nat)
| Query (query : string) (sid : option nat).

Definition exec (b : Backend) (c : Call) : Backend :=
  match c with
  | Upload name bytes => snd (upload name bytes b)
  | Delete name => snd (delete name b)
  | Reprocess => snd (reprocess b)
  | NewSession ttl => snd (create ttl b)
  | DeleteSession id => delete_session id b
  | Query query sid => snd (answer query sid b)
  end.

Definition exec_all (cs : list Call) (b : Backend) : Backend := fold_left exec cs b.

(** The states the backend reaches from the empty one. *)
Definition reachable (b : Backend) : Prop := exists cs, b = exec_all cs empty.

(** The document a chunk id refers to is in the store. *)
Definition refers_to_stored_document (b : Backend) (id : ChunkId) : Prop :=
  exists c, In c (chunks b) /\ chunk_id c = id /\
            exists d, In d (documents b) /\ doc_id d = document_id c.

(** Referential integrity of a state (section 3) and the session cap:
    documents are named by their id, every chunk has its document, a
    chunk id starts with the document id, every vector of the index has
    its chunk, and at most [session_cap] sessions are retained. *)
Record consistent (b : Backend) : Prop := mkConsistent {
  docs_named : forall d, In d (documents b) -> doc_id d = filename d;
  chunks_owned : forall c, In c (chunks b) ->
                 exists d, In d (documents b) /\ doc_id d = document_id c;
  chunks_keyed : forall c, In c (chunks b) -> fst (chunk_id c) = document_id c;
  index_backed : forall e, In e (index b) ->
                 exists c, In c (chunks b) /\ chunk_id c = embedding_chunk_id e;
  sessions_capped : (List.length (sessions b) <= session_cap)%nat }.

(** Modelled from the spec: the body of GET /chat/status (section 6),
    [{vectorstore_available: bool, document_count: int}]. *)
Definition status_response (b : Backend) : Client.Response :=
  Client.mkResponse 200
    (Some (Js.JObj
       [(Js.lit "vectorstore_available",
         Js.JBool (available (vector_store_status b)));
        (Js.lit "document_count",
         Js.JNum (Z.of_nat (status_document_count (vector_store_status b))))])).

End Engine.

End Backend.

(* ================================================================== *)
(** ** A concrete server and a concrete engine, for running the models *)
(* ================================================================== *)

Module Demo.
Import Js Client.

(** A server that accepts uploads, answers queries and reports its
    status, while the refresh of the vector store and the reloads of the
    lists fail on the network. *)
Definition flaky (r : Request) : FetchResult :=
  match endpoint r with
  | DocumentsUpload => Resolved (mkResponse 200 (Some (JObj [])))
  | ChatQuery =>
      Resolved (mkResponse 200 (Some (JObj
        [(lit "response", str "The sky is blue.");
         (lit "source_documents", JArr [str "notes.txt"]);
         (lit "session_id", str "s-1")])))
  | ChatNewSession =>
      Resolved (mkResponse 200 (Some (JObj [(lit "session_id", str "s-2")])))
  | ChatStatusPath =>
      Resolved (mkResponse 200 (Some (JObj
        [(lit "vectorstore_available", JBool true);
         (lit "document_count", JNum 1)])))
  | _ => Rejected (lit "Failed to fetch")
  end.

(** The user has typed a question. *)
Definition asking : State :=
  with_chatStatus (mkChatStatus (JBool true) (JNum 1))
    (with_inputMessage (lit "What color is the sky?") initialState).

(** A question typed, then the index reported gone. *)
Definition stranded : State :=
  with_chatStatus (mkChatStatus (JBool false) (JNum 0)) asking.

(** A session is open and nothing has been said in it. *)
Definition emptyChat : State := with_currentSessionId (str "s-1") initialState.

Definition blankInput : State := with_inputMessage (lit "  ") initialState.

Definition notes : File := mkFile (lit "notes.txt") [84; 104; 101]%N.

Definition threeFiles : State :=
  with_currentPage 5
    (with_uploadedFiles [str "a.txt"; str "b.txt"; str "c.txt"] initialState).

(** An engine: text is the bytes, one chunk per non-empty document, the
    vector of a text is its length and the embedding service always
    answers, closer lengths score higher, and the generation service
    echoes the prompt. *)
Definition decode (name : string) (bytes : list Byte.byte) : option string :=
  Some (string_of_list_byte bytes).

Definition split (txt : string) : list (string * (nat * nat)) :=
  match txt with
  | EmptyString => []
  | _ => [(txt, (0%nat, String.length txt))]
  end.

Definition embed (t : nat) (txt : string) : option Z :=
  Some (Z.of_nat (String.length txt)).
Definition score (q v : Z) : Z := (- Z.abs (q - v))%Z.
Definition assemble (texts : list string) (history : list Backend.Message)
           (query : string) : string :=
  String.concat " " (texts ++ [query]).
Definition generate (prompt : string) : option string := Some prompt.

Definition run_calls (cs : list Backend.Call) (b : Backend.Backend Z)
  : Backend.Backend Z :=
  Backend.exec_all decode split embed "demo" score assemble generate 3 10
                   "New Chat" cs b.

Definition blue : list Byte.byte :=
  list_byte_of_string "The sky is blue.".

(** One document uploaded and indexed. *)
Definition oneDocument : Backend.Backend Z :=
  run_calls [Backend.Upload "notes.txt" blue] (Backend.empty Z).

(** The same engine with an embedding service that is down at time 1
    and answers at every other time. *)
Definition interrupted (t : nat) (txt : string) : option Z :=
  if (t =? 1)%nat then None else embed t txt.

Definition run_interrupted (cs : list Backend.Call) (b : Backend.Backend Z)
  : Backend.Backend Z :=
  Backend.exec_all decode split interrupted "demo" score assemble generate 3 10
                   "New Chat" cs b.

Definition reprocess_interrupted (b : Backend.Backend Z) : Backend.Backend Z :=
  snd (Backend.reprocess decode split interrupted "demo" b).

(** One document, uploaded at time 0 while the service answered. *)
Definition beforeOutage : Backend.Backend Z :=
  run_interrupted [Backend.Upload "notes.txt" blue] (Backend.empty Z).

(** One document and one session: the clock is past the outage. *)
Definition afterOutage : Backend.Backend Z :=
  run_interrupted [Backend.Upload "notes.txt" blue; Backend.NewSession "chat"]
                  (Backend.empty Z).







(** Fifty sessions created, one after the other. *)
Definition fiftySessions : list Backend.Call :=
  map (fun _ => Backend.NewSession "chat") (seq 0 50).

Definition full : Backend.Backend Z := run_calls fiftySessions (Backend.empty Z).

(** A server that refuses everything with a 500 and a reason. *)
Definition reason : value := JObj [(lit "detail", str "boom")].
Definition refusing (r : Request) : FetchResult :=
  Resolved (mkResponse 500 (Some reason)).

(** A server that answers everything with a 200 and one body. *)
Definition everything : value :=
  JObj [(lit "files", JArr [str "a.txt"]);
        (lit "sessions", JArr [JObj [(lit "id", str "s-1")]]);
        (lit "messages", JArr [userMessage (lit "hello")]);
        (lit "session_id", str "s-9");
        (lit "vectorstore_available", JBool true);
        (lit "document_count", JNum 1)].
Definition accepting (r : Request) : FetchResult :=
  Resolved (mkResponse 200 (Some everything)).

(** A server that sends the status with strings where the interface has
    a boolean and an integer. *)
Definition mistyped (r : Request) : FetchResult :=
  Resolved (mkResponse 200 (Some (JObj
    [(lit "vectorstore_available", str "yes");
     (lit "document_count", str "3")]))).

(** A server on which the session with id 0 holds no message. *)
Definition numbering (r : Request) : FetchResult :=
  match endpoint r with
  | ChatSession (JNum 0) => Resolved (mkResponse 200 (Some (JObj [(lit "messages", JArr [])])))
  | _ => Rejected (lit "Failed to fetch")
  end.

(** The user has clicked, in the history, the session with id 0. *)
Definition sessionZero : State :=
  final (loadChatSession numbering (JNum 0)) initialState.

(** A server that deletes what it is asked to and then lists two files. *)
Definition shrinking (r : Request) : FetchResult :=
  match endpoint r with
  | DocumentsDelete _ => Resolved (mkResponse 200 (Some (JObj [])))
  | DocumentsList =>
      Resolved (mkResponse 200 (Some (JObj
        [(lit "files", JArr [str "a.txt"; str "b.txt"])])))
  | ChatStatusPath =>
      Resolved (mkResponse 200 (Some (JObj
        [(lit "vectorstore_available", JBool true);
         (lit "document_count", JNum 2)])))
  | _ => Rejected (lit "Failed to fetch")
  end.

(** A server that lists three files. *)
Definition stocked (r : Request) : FetchResult :=
  match endpoint r with
  | DocumentsDelete _ => Resolved (mkResponse 200 (Some (JObj [])))
  | DocumentsList =>
      Resolved (mkResponse 200 (Some (JObj
        [(lit "files", JArr [str "a.txt"; str "b.txt"; str "c.txt"])])))
  | _ => Rejected (lit "Failed to fetch")
  end.

(** The user has deleted a file, after which three are listed, and has
    gone to the second page, which shows the one file [c.txt]. *)
Definition browsing : list (Network * UiEvent) :=
  [(stocked, ClickDeleteFile (str "z.txt")); (flaky, ClickNextPage)].

Definition secondPage : State := steps browsing initialState.

(** The state rendered after [c.txt] is deleted from the second page,
    before the pagination effect has run. *)
Definition afterDelete : State :=
  final (handler shrinking secondPage (ClickDeleteFile (str "c.txt"))) secondPage.



(** A 200 whose body is [null]. *)
Definition hollow (r : Request) : FetchResult :=
  Resolved (mkResponse 200 (Some JNull)).

(** Three files, the first page shown. *)
Definition firstPage : State :=
  with_uploadedFiles [str "a.txt"; str "b.txt"; str "c.txt"] initialState.

(** A question is on its way. *)
Definition waiting : State := with_loading true asking.

(** A conversation in its session. *)
Definition talking : State :=
  with_messages [userMessage (lit "hello")] emptyChat.

End Demo.

(* ================================================================== *)
(** ** Facts about JavaScript strings and arrays *)
(* ================================================================== *)

Module JsFacts.
Import Js.

(** Where [array_or_empty] is exact: for an array or a falsy value the
    list it gives is the array [v || []]. *)
Lemma array_or_empty_exact (v : value) :
  array_or_falsy v = true -> JArr (array_or_empty v) = or_else v (JArr []).
Proof.
  unfold or_else. destruct v as [| |b|z|s|l|f]; cbn; try reflexivity.
  - now destruct b.
  - now destruct (z =? 0)%Z.
  - now destruct s.
  - discriminate.
Qed.

Lemma trim_start_blank (s : jsstring) : blank s = true -> trim_start s = [].
Proof.
  induction s as [|c rest IH]; simpl; [reflexivity|].
  intros H. apply andb_true_iff in H as [Hc Hrest].
  rewrite Hc. now apply IH.
Qed.

Lemma trim_start_nil_blank (s : jsstring) : trim_start s = [] -> blank s = true.
Proof.
  induction s as [|c rest IH]; simpl; [reflexivity|].
  destruct (is_white_space c); [|discriminate]. intros H. now rewrite IH.
Qed.

Lemma blank_app (a b : jsstring) : blank (a ++ b) = blank a && blank b.
Proof. apply forallb_app. Qed.

Lemma blank_rev (s : jsstring) : blank (rev s) = blank s.
Proof.
  induction s as [|c rest IH]; simpl; [reflexivity|].
  rewrite blank_app, IH. simpl. rewrite andb_true_r. apply andb_comm.
Qed.

(** What [trim_start] leaves is blank only if the whole string was. *)
Lemma blank_trim_start (s : jsstring) : blank (trim_start s) = blank s.
Proof.
  induction s as [|c rest IH]; simpl; [reflexivity|].
  destruct (is_white_space c) eqn:E; simpl; [exact IH|].
  now rewrite E.
Qed.

(** [s.trim()] is the empty string exactly when [s] is empty or
    whitespace-only. *)
Lemma trim_nil_iff (s : jsstring) : trim s = [] <-> blank s = true.
Proof.
  unfold trim, trim_end. split.
  - intros H.
    assert (Hr : trim_start (rev (trim_start s)) = []).
    { destruct (trim_start (rev (trim_start s))) as [|x l]; [reflexivity|].
      simpl in H. now destruct (rev l). }
    apply trim_start_nil_blank in Hr.
    rewrite blank_rev, blank_trim_start in Hr. exact Hr.
  - intros H. now rewrite (trim_start_blank _ H).
Qed.

Lemma truthy_trim (s : jsstring) : truthy (JStr (trim s)) = negb (blank s).
Proof.
  destruct (blank s) eqn:E.
  - apply trim_nil_iff in E. now rewrite E.
  - simpl. destruct (trim s) eqn:T; [|reflexivity].
    apply trim_nil_iff in T. congruence.
Qed.

Lemma ceil_div_2 (n : Z) : (0 <= n -> 2 * ceil_div n 2 - 1 <= n <= 2 * ceil_div n 2)%Z.
Proof.
  intros H. unfold ceil_div.
  pose proof (Z.div_mod (- n) 2 ltac:(lia)).
  pose proof (Z.mod_pos_bound (- n) 2 ltac:(lia)). lia.
Qed.

Lemma length_slice {A : Type} (l : list A) (a b : Z) :
  (a <= b -> Z.of_nat (List.length (slice l a b)) <= b - a)%Z.
Proof.
  intros Hab. unfold slice. cbv zeta. rewrite length_firstn, length_skipn.
  destruct (Z.ltb_spec a 0), (Z.ltb_spec b 0); lia.
Qed.

End JsFacts.

(* ================================================================== *)
(** ** The handlers of the client *)
(* ================================================================== *)

Module ClientFacts.
Import Js Client JsFacts.

(** *** What a computation preserves, by its structure *)

Section Preserves.

Variable I : World -> Prop.

Lemma preserves_ret {A} (a : A) : preserves I (ret a).
Proof. intros w H. exact H. Qed.

Lemma preserves_throw {A} (e : Exception) : preserves I (@throw A e).
Proof. intros w H. exact H. Qed.

Lemma preserves_bind {A C} (m : M A) (k : A -> M C) :
  preserves I m -> (forall a, preserves I (k a)) -> preserves I (bind m k).
Proof.
  intros Hm Hk w H. unfold bind. specialize (Hm w H).
  destruct (m w) as [[a|e] w']; simpl in *.
  - now apply Hk.
  - exact Hm.
Qed.

Lemma preserves_try_catch {A} (m : M A) (h : Exception -> M A) :
  preserves I m -> (forall e, preserves I (h e)) -> preserves I (try_catch m h).
Proof.
  intros Hm Hh w H. unfold try_catch. specialize (Hm w H).
  destruct (m w) as [[a|e] w']; simpl in *.
  - exact Hm.
  - now apply Hh.
Qed.

Lemma preserves_finally {A} (m : M A) (fin : M unit) :
  preserves I m -> preserves I fin -> preserves I (finally m fin).
Proof.
  intros Hm Hf w H. unfold finally. specialize (Hm w H).
  destruct (m w) as [r w']. specialize (Hf w' Hm).
  destruct (fin w') as [[u|e] w'']; exact Hf.
Qed.

Lemma preserves_spawn (m : M unit) : preserves I m -> preserves I (spawn m).
Proof. intros Hm w H. unfold spawn. simpl. now apply Hm. Qed.

Lemma preserves_json (r : Response) : preserves I (json r).
Proof. intros w H. unfold json. now destruct (json_body r). Qed.

Lemma preserves_prop (data : value) (name : string) : preserves I (prop data name).
Proof. intros w H. unfold prop. now destruct (get data (lit name)). Qed.

Lemma preserves_emit (e : Effect) :
  (forall w, I w -> I (mkWorld (state w) (trace w ++ [e]))) ->
  preserves I (emit e).
Proof. intros He w H. now apply He. Qed.

Lemma preserves_modify (g : State -> State) :
  (forall w, I w -> I (mkWorld (g (state w)) (trace w))) ->
  preserves I (modify g).
Proof. intros Hg w H. now apply Hg. Qed.

Lemma preserves_fetch (net : Network) (r : Request) :
  (forall w, I w -> I (mkWorld (state w) (trace w ++ [Fetch r]))) ->
  preserves I (fetch net r).
Proof.
  intros He. apply preserves_bind; [now apply preserves_emit|].
  intros _ w H. now destruct (net r).
Qed.

Lemma preserves_uploadFiles (net : Network) (files : list File) :
  (forall f, preserves I (uploadFile net f)) ->
  preserves I (uploadFiles net files).
Proof.
  intros Hf. induction files as [|f rest IH]; cbn [uploadFiles].
  - apply preserves_ret.
  - apply preserves_bind; [apply preserves_spawn, Hf | intros _; exact IH].
Qed.

End Preserves.

Lemma requests_app (t u : list Effect) : requests (t ++ u) = requests t ++ requests u.
Proof.
  induction t as [|e t IH]; simpl; [reflexivity|].
  destruct e; simpl; now rewrite IH.
Qed.

Lemma notifications_app (t u : list Effect) :
  notifications (t ++ u) = notifications t ++ notifications u.
Proof.
  induction t as [|e t IH]; simpl; [reflexivity|].
  destruct e; simpl; now rewrite IH.
Qed.

Lemma in_requests (r : Request) (t : list Effect) : In (Fetch r) t -> In r (requests t).
Proof.
  induction t as [|e t IH]; simpl; [tauto|].
  intros [H|H]; [subst e; now left|].
  destruct e; simpl; auto.
Qed.

Lemma in_notifications (n : value) (t : list Effect) :
  In (ShowNotification n) t -> In n (notifications t).
Proof.
  induction t as [|e t IH]; simpl; [tauto|].
  intros [H|H]; [subst e; now left|].
  destruct e; simpl; auto.
Qed.

Create HintDb handlers.
#[local] Hint Unfold
  showNotification loadUploadedFiles checkChatStatus loadChatSessions
  loadChatSession createNewChat deleteChatSession uploadFile sendMessage
  deleteFile reprocessDocuments handleKeyPress copyToClipboard
  setSidebarOpen setHistoryDrawerOpen setMessages setInputMessage setLoading
  setUploadedFiles setChatStatus setDragOver setNotification setCopiedIndex
  setCurrentPage setChatSessions setCurrentSessionId : handlers.

(** One step through the structure of a computation; [side] proves that
    the property survives one write to the state or to the trace. *)
Ltac preserves_step side :=
  lazymatch goal with
  | |- preserves _ (bind _ _) => apply preserves_bind; [|intros ?]
  | |- preserves _ (try_catch _ _) => apply preserves_try_catch; [|intros ?]
  | |- preserves _ (finally _ _) => apply preserves_finally
  | |- preserves _ (spawn _) => apply preserves_spawn
  | |- preserves _ (ret _) => apply preserves_ret
  | |- preserves _ (throw _) => apply preserves_throw
  | |- preserves _ (json _) => apply preserves_json
  | |- preserves _ (prop _ _) => apply preserves_prop
  | |- preserves _ (if ?c then _ else _) => destruct c
  | |- preserves _ (uploadFiles _ _) => apply preserves_uploadFiles; intros ?
  | |- preserves _ (fetch _ _) => apply preserves_fetch; side
  | |- preserves _ (emit _) => apply preserves_emit; side
  | |- preserves _ (modify _) => apply preserves_modify; side
  | |- _ => progress autounfold with handlers
  end.

Ltac preserves_with side := repeat (preserves_step side).

(** The side conditions of the four kinds of property used below. *)
Ltac state_side := let H := fresh in intros ? H; cbn in *; exact H.
Ltac requests_side :=
  let H := fresh in
  intros ? H; cbn [state trace] in *;
  first [ exact H
        | rewrite requests_app, filter_app; cbn; rewrite app_nil_r; exact H ].
Ltac grows_side :=
  let H := fresh in
  intros ? H; cbn [state trace] in *;
  first [ exact H | apply in_or_app; left; exact H ].

Ltac keeps_tac :=
  let b := fresh in let w := fresh in
  intros w;
  lazymatch goal with
  | |- ?f (state (snd (?m w))) = _ =>
      assert (b : preserves (fun w' => f (state w') = f (state w)) m);
      [ solve [preserves_with state_side] | exact (b w eq_refl) ]
  end.

Ltac sends_no_tac :=
  let b := fresh in let w := fresh in
  intros w;
  lazymatch goal with
  | |- filter ?p (requests (trace (snd (?m w)))) = _ =>
      assert (b : preserves
                    (fun w' => filter p (requests (trace w')) =
                               filter p (requests (trace w))) m);
      [ solve [preserves_with requests_side] | exact (b w eq_refl) ]
  end.

Section WithNetwork.

Variable net : Network.

Lemma loadChatSessions_keeps_messages : keeps messages (loadChatSessions net).
Proof. keeps_tac. Qed.

Lemma loadChatSessions_keeps_session : keeps currentSessionId (loadChatSessions net).
Proof. keeps_tac. Qed.


(** Reading a property of a readable body does not throw. *)
Lemma get_readable (data : value) (name : string) :
  readable data -> get data (lit name) = Some (field data name).
Proof.
  intros [Hn Hu]. unfold field. destruct data; try reflexivity; congruence.
Qed.

(** A request sent at the head of a [try] block is in the trace at
    the end, whatever follows it. *)
Lemma fetch_first {A} (r : Request) (k : Response -> M A) (h : Exception -> M A)
      (w : World) :
  (forall resp, preserves (fun w' => In (Fetch r) (trace w')) (k resp)) ->
  (forall e, preserves (fun w' => In (Fetch r) (trace w')) (h e)) ->
  In (Fetch r) (trace (snd (try_catch (bind (fetch net r) k) h w))).
Proof.
  intros Hk Hh.
  unfold try_catch, fetch. unfold bind, emit.
  set (w0 := mkWorld (state w) (trace w ++ [Fetch r])).
  assert (H0 : In (Fetch r) (trace w0)).
  { simpl. apply in_or_app. right. now left. }
  clearbody w0.
  destruct (net r) as [m|resp]; cbn [throw ret].
  - exact (Hh _ w0 H0).
  - specialize (Hk resp w0 H0).
    destruct (k resp w0) as [[a|e] w']; simpl in *;
      [exact Hk | exact (Hh _ w' Hk)].
Qed.

Lemma snd_bind_modify {A} (g : State -> State) (k : unit -> M A) (w : World) :
  snd (bind (modify g) k w) = snd (k tt (mkWorld (g (state w)) (trace w))).
Proof. reflexivity. Qed.

Lemma finally_after {A} (I : World -> Prop) (m : M A) (fin : M unit) (w : World) :
  I (snd (m w)) -> preserves I fin -> I (snd (finally m fin w)).
Proof.
  intros Hm Hf. unfold finally. destruct (m w) as [r w']. simpl in Hm.
  specialize (Hf w' Hm). now destruct (fin w') as [[u|e] w''].
Qed.

(** Evaluation of a handler, the un-awaited reloads left folded. *)
Ltac eval_handler :=
  cbv [negb orb andb bind ret modify emit fetch json prop finally try_catch
       setMessages setInputMessage setLoading setCurrentSessionId spawn
       showNotification setNotification throw];
  cbn [state trace snd fst].

(** C10: with an empty or whitespace-only input, or while a request is in
    flight ([loading]), [sendMessage] does nothing: it makes no call at
    all, so no network request, and the whole state, with the message
    list, the input text and the current session id, is as before. *)
Theorem sendMessage_noop (s : State) :
  blank (inputMessage s) = true \/ loading s = true ->
  requests (calls (sendMessage net s) s) = [] /\
  messages (final (sendMessage net s) s) = messages s /\
  inputMessage (final (sendMessage net s) s) = inputMessage s /\
  currentSessionId (final (sendMessage net s) s) = currentSessionId s /\
  run (sendMessage net s) s = (Done tt, mkWorld s []).
Proof.
  intros H. unfold calls, final, run, sendMessage.
  rewrite truthy_trim, negb_involutive.
  assert (E : blank (inputMessage s) || loading s = true).
  { destruct H as [H|H]; rewrite H; [reflexivity | apply orb_true_r]. }
  rewrite E. simpl. repeat split; reflexivity.
Qed.

(** C3: when the POST to /chat/query is answered with a 2xx status and
    a JSON body, the message list grows by exactly the user message (role
    "user", the submitted text as content) followed by the assistant
    message (role "assistant", the returned [response] as content, the
    returned [source_documents] as sources), and the current session id
    becomes the returned [session_id]. *)
Theorem sendMessage_success (s : State) (data : value) :
  blank (inputMessage s) = false -> loading s = false ->
  succeeds net (queryRequest s) data -> readable data ->
  messages (final (sendMessage net s) s) =
    messages s ++ [userMessage (inputMessage s);
                   assistantMessage (field data "response")
                                    (field data "source_documents")] /\
  currentSessionId (final (sendMessage net s) s) = field data "session_id".
Proof.
  intros Hb Hl (resp & Hnet & Hok & Hbody) Hdata.
  unfold final, run, sendMessage. rewrite truthy_trim, Hb, Hl.
  unfold queryRequest in Hnet.
  eval_handler. rewrite Hnet, Hbody, Hok.
  rewrite !(get_readable _ Hdata). cbn [state trace snd fst].
  split.
  - cbn [messages with_loading].
    rewrite loadChatSessions_keeps_messages.
    cbn [state messages with_currentSessionId with_messages with_loading
         with_inputMessage].
    rewrite <- app_assoc. reflexivity.
  - cbn [currentSessionId with_loading].
    rewrite loadChatSessions_keeps_session. reflexivity.
Qed.

(** The guard of [createNewChat], as a proposition. *)
Lemma empty_chat_open_iff (s : State) :
  truthy (currentSessionId s) && (List.length (messages s) =? 0)%nat = true <->
  truthy (currentSessionId s) = true /\ messages s = [].
Proof.
  rewrite andb_true_iff, Nat.eqb_eq. split; intros [H1 H2]; split; auto.
  - now destruct (messages s).
  - now rewrite H2.
Qed.

(** C1: [createNewChat] with a truthy current session id (the guard
    tests the id for truthiness, so an id that is 0 or the empty string
    counts as none, like [null]) and an empty message list is rejected: no
    request is sent, the message list and the current session id stay, and
    the only call is the notification.  In every other state the POST to
    /chat/new-session is sent, and when it is answered with a 2xx status
    and a JSON body the message list is emptied and the returned
    [session_id] becomes the current session id. *)
Theorem createNewChat_guard (s : State) :
  (truthy (currentSessionId s) = true /\ messages s = [] ->
     requests (calls (createNewChat net s) s) = [] /\
     calls (createNewChat net s) s =
       [ShowNotification (str "You already have an empty chat open")] /\
     messages (final (createNewChat net s) s) = messages s /\
     currentSessionId (final (createNewChat net s) s) = currentSessionId s /\
     final (createNewChat net s) s =
       with_notification (str "You already have an empty chat open") s)
  /\
  (~ (truthy (currentSessionId s) = true /\ messages s = []) ->
     In newSessionRequest (requests (calls (createNewChat net s) s)) /\
     forall data,
       succeeds net newSessionRequest data -> readable data ->
       messages (final (createNewChat net s) s) = [] /\
       currentSessionId (final (createNewChat net s) s) = field data "session_id").
Proof.
  split.
  - intros H. apply empty_chat_open_iff in H.
    unfold calls, final, run, createNewChat. rewrite H.
    repeat split; reflexivity.
  - intros H.
    assert (E : truthy (currentSessionId s) && (List.length (messages s) =? 0)%nat = false).
    { destruct (truthy (currentSessionId s) && (List.length (messages s) =? 0)%nat) eqn:E;
        [|reflexivity].
      apply empty_chat_open_iff in E. contradiction. }
    unfold calls, final, run, createNewChat. rewrite E. split.
    + apply in_requests, fetch_first; intros; preserves_with grows_side.
    + intros data (resp & Hnet & Hok & Hbody) Hdata.
      unfold newSessionRequest in Hnet.
      eval_handler. rewrite Hnet, Hbody, Hok.
      rewrite !(get_readable _ Hdata). cbn [state trace snd fst].
      split.
      * cbn [messages with_notification].
        now rewrite loadChatSessions_keeps_messages.
      * cbn [currentSessionId with_notification].
        now rewrite loadChatSessions_keeps_session.
Qed.

Lemma loadUploadedFiles_grows (e : Effect) :
  preserves (fun w => In e (trace w)) (loadUploadedFiles net).
Proof. preserves_with grows_side. Qed.

Lemma checkChatStatus_grows (e : Effect) :
  preserves (fun w => In e (trace w)) (checkChatStatus net).
Proof. preserves_with grows_side. Qed.



Lemma loadUploadedFiles_requests (w : World) :
  In (Fetch listRequest) (trace (snd (loadUploadedFiles net w))).
Proof. apply fetch_first; intros; preserves_with grows_side. Qed.

Lemma checkChatStatus_requests (w : World) :
  In (Fetch statusRequest) (trace (snd (checkChatStatus net w))).
Proof. apply fetch_first; intros; preserves_with grows_side. Qed.

(** *** The interface: no query without an index *)




(** *** The status the client keeps *)

(** The status after [checkChatStatus], by the answer to the request. *)
Lemma checkChatStatus_cases (s : State) :
  (chatStatus (final (checkChatStatus net) s) = defaultStatus /\
   forall data, succeeds net statusRequest data -> ~ readable data) \/
  (exists data,
     succeeds net statusRequest data /\ readable data /\
     chatStatus (final (checkChatStatus net) s) =
       {| vectorstore_available :=
            or_else (field data "vectorstore_available") (JBool false);
          document_count := or_else (field data "document_count") (JNum 0) |}).
Proof.
  unfold final, run, checkChatStatus, succeeds.
  cbv [bind ret modify emit fetch json prop try_catch setChatStatus
       showNotification setNotification throw].
  cbn [state trace snd fst]. fold statusRequest.
  destruct (net statusRequest) as [m|resp] eqn:Hnet.
  { left. split; [reflexivity|]. intros data (r & Hr & _). discriminate. }
  destruct (ok resp) eqn:Hok; cbn [negb].
  2:{ left. split; [reflexivity|]. intros data (r & Hr & Hk & _).
      injection Hr as <-. congruence. }
  destruct (json_body resp) as [data|] eqn:Hbody.
  2:{ left. split; [reflexivity|]. intros data (r & Hr & _ & Hb).
      injection Hr as <-. congruence. }
  assert (Hsame : forall d, (exists r, Resolved resp = Resolved r /\ ok r = true /\
                                       json_body r = Some d) -> d = data).
  { intros d (r & Hr & _ & Hb). injection Hr as <-. congruence. }
  destruct data;
    try (left; split; [reflexivity|];
         intros d Hd; apply Hsame in Hd; subst d; intros [? ?]; congruence);
    right; eexists; (split; [exists resp; repeat split; eassumption|]);
    (split; [split; discriminate | reflexivity]).
Qed.

Lemma or_else_boolean (v : value) :
  boolean_or_missing v -> exists b, or_else v (JBool false) = JBool b.
Proof.
  intros [->|[->|[b ->]]]; [now exists false | now exists false |].
  exists b. now destruct b.
Qed.

Lemma or_else_number (v : value) :
  number_or_missing v -> exists n, or_else v (JNum 0) = JNum n.
Proof.
  intros [->|[->|[n ->]]]; [now exists 0%Z | now exists 0%Z |].
  unfold or_else. cbn. destruct (n =? 0)%Z eqn:E; cbn; eauto.
Qed.

Lemma or_else_defined (v d : value) : defined d -> defined (or_else v d).
Proof.
  intros Hd. unfold or_else. destruct (truthy v) eqn:E; [|exact Hd].
  split; intros ->; discriminate.
Qed.

(** Whatever the answer, both fields of the status are there. *)
Lemma checkChatStatus_complete (s : State) :
  complete (chatStatus (final (checkChatStatus net) s)).
Proof.
  assert (Hb : defined (JBool false)) by (split; discriminate).
  assert (Hn : defined (JNum 0)) by (split; discriminate).
  destruct (checkChatStatus_cases s) as [[-> _]|(data & _ & _ & ->)];
    split; cbn [vectorstore_available document_count defaultStatus];
    auto using or_else_defined.
Qed.

(** The client's side of the status: after [checkChatStatus] it is the
    default [{false, 0}] unless the request was answered with a 2xx
    status and a readable JSON body; then each field is the one sent, or
    its default when the field is missing or falsy.  With a server that
    keeps to the types of the interface the status is well-formed. *)
Lemma checkChatStatus_status (s : State) :
  (status_typed net -> well_formed (chatStatus (final (checkChatStatus net) s))) /\
  ((forall data, succeeds net statusRequest data -> ~ readable data) ->
   chatStatus (final (checkChatStatus net) s) = defaultStatus) /\
  (forall data, succeeds net statusRequest data -> readable data ->
     chatStatus (final (checkChatStatus net) s) =
       {| vectorstore_available :=
            or_else (field data "vectorstore_available") (JBool false);
          document_count := or_else (field data "document_count") (JNum 0) |}).
Proof.
  destruct (checkChatStatus_cases s) as [[Hd Hno]|(data & Hs & Hr & Hst)].
  - split; [|split].
    + intros _. rewrite Hd. split; cbn; eauto.
    + intros _. exact Hd.
    + intros data Hs Hr. now destruct (Hno data Hs).
  - assert (Huniq : forall d, succeeds net statusRequest d -> d = data).
    { destruct Hs as (r & Hr1 & _ & Hb1). intros d (r' & Hr2 & _ & Hb2).
      congruence. }
    split; [|split].
    + intros Ht. rewrite Hst. destruct Hs as (r & Hnet & _ & Hbody).
      destruct data as [| | | | |elems|fields];
        try (split; cbn; eauto; fail).
      destruct (Ht r fields Hnet Hbody) as [Hb Hn].
      split; cbn [vectorstore_available document_count field get].
      * now apply or_else_boolean.
      * now apply or_else_number.
    + intros Hno. now destruct (Hno data Hs).
    + intros d Hsd _. now rewrite (Huniq d Hsd).
Qed.

(** *** Pagination *)

Lemma totalPages_resetPagination (s : State) :
  totalPages (resetPagination s) = totalPages s.
Proof.
  unfold resetPagination.
  now destruct ((totalPages s <=? currentPage s)%Z && (0 <? totalPages s)%Z).
Qed.

Lemma resetPagination_in_range (s : State) :
  (0 < totalPages s ->
   currentPage (resetPagination s) < totalPages s)%Z.
Proof.
  intros HT. unfold resetPagination.
  destruct (Z.leb_spec (totalPages s) (currentPage s));
    destruct (Z.ltb_spec 0 (totalPages s)); cbn; lia.
Qed.

Lemma resetPagination_nonneg (s : State) :
  (0 <= currentPage s -> 0 <= currentPage (resetPagination s))%Z.
Proof.
  intros Hp. unfold resetPagination.
  destruct (Z.leb_spec (totalPages s) (currentPage s));
    destruct (Z.ltb_spec 0 (totalPages s)); cbn; lia.
Qed.



(** What a page shows when its number is in range. *)
Lemma currentFiles_nonempty (s : State) :
  (0 <= currentPage s < totalPages s)%Z -> currentFiles s <> [].
Proof.
  intros [Hp HT] E.
  assert (L : List.length (currentFiles s) = 0%nat) by now rewrite E.
  revert L HT. unfold currentFiles, totalPages, slice, filesPerPage. cbv zeta.
  set (n := Z.of_nat (List.length (uploadedFiles s))).
  assert (Hn : (0 <= n)%Z) by apply Nat2Z.is_nonneg.
  pose proof (ceil_div_2 Hn) as Hc.
  rewrite length_firstn, length_skipn. fold n.
  destruct (Z.ltb_spec (currentPage s * 2) 0);
    destruct (Z.ltb_spec ((currentPage s + 1) * 2) 0); lia.
Qed.

End WithNetwork.

(** C9: the page shown holds at most [filesPerPage] = 2 files, whatever
    the list and the page number; when [totalPages > 0] the reset effect,
    once it has run, leaves [currentPage] strictly below [totalPages]; and
    with a page number that is not negative (which every step of the
    interface keeps) and a non-empty file list, the page shown after the
    effect is not empty.  Nothing is said of the page rendered before the
    effect has run. *)
Theorem pagination_in_range (s : State) :
  (List.length (currentFiles s) <= 2)%nat /\
  ((0 < totalPages s)%Z ->
   (currentPage (resetPagination s) < totalPages (resetPagination s))%Z) /\
  ((0 <= currentPage s)%Z -> uploadedFiles s <> [] ->
   currentFiles (resetPagination s) <> []).
Proof.
  split; [|split].
  - unfold currentFiles, filesPerPage.
    pose proof (@length_slice _ (uploadedFiles s) (currentPage s * 2)
                  ((currentPage s + 1) * 2) ltac:(lia)).
    lia.
  - intros HT. rewrite totalPages_resetPagination.
    now apply resetPagination_in_range.
  - intros Hp Hfiles.
    assert (HT : (0 < totalPages s)%Z).
    { unfold totalPages, filesPerPage.
      destruct (uploadedFiles s) as [|f rest]; [congruence|].
      pose proof (@ceil_div_2 (Z.of_nat (List.length (f :: rest)))
                    (Nat2Z.is_nonneg _)).
      cbn [List.length] in *. lia. }
    apply currentFiles_nonempty. rewrite totalPages_resetPagination. split.
    + now apply resetPagination_nonneg.
    + now apply resetPagination_in_range.
Qed.

End ClientFacts.

(* ================================================================== *)
(** ** The backend: index, sessions and the invariants of its states *)
(* ================================================================== *)

Module BackendFacts.
Import Backend.

Section Index.

Variable Vector : Type.
Implicit Types (e : Embedding Vector) (idx es : list (Embedding Vector)).

Lemma in_upsert e x idx : In x (upsert e idx) -> x = e \/ In x idx.
Proof.
  induction idx as [|y rest IH]; cbn [upsert].
  - intros [H|[]]; auto.
  - destruct (chunk_id_eqb (embedding_chunk_id y) (embedding_chunk_id e)).
    + intros [H|H]; [auto | right; now right].
    + intros [H|H]; [right; now left|].
      destruct (IH H); [auto | right; now right].
Qed.

Lemma in_upsert_all es : forall idx x,
  In x (upsert_all es idx) -> In x es \/ In x idx.
Proof.
  unfold upsert_all.
  induction es as [|e rest IH]; cbn [fold_left]; intros idx x H; [auto|].
  destruct (IH _ _ H) as [H1|H1]; [left; now right|].
  destruct (in_upsert _ _ _ H1) as [->|H2]; [left; now left | now right].
Qed.

(** An upsert into a non-empty index leaves it non-empty. *)
Lemma upsert_not_nil e idx : upsert e idx <> [].
Proof.
  destruct idx as [|y rest]; cbn [upsert]; [discriminate|].
  now destruct (chunk_id_eqb (embedding_chunk_id y) (embedding_chunk_id e)).
Qed.

Lemma in_remove ids x idx :
  In x (remove ids idx) <->
  In x idx /\ existsb (chunk_id_eqb (embedding_chunk_id x)) ids = false.
Proof.
  unfold remove. rewrite filter_In, negb_true_iff. reflexivity.
Qed.

Lemma chunk_id_eqb_eq (a b : ChunkId) : chunk_id_eqb a b = true <-> a = b.
Proof.
  unfold chunk_id_eqb. destruct a as [a1 a2], b as [b1 b2]; cbn [fst snd].
  rewrite andb_true_iff, String.eqb_eq, Nat.eqb_eq.
  split; [intros [-> ->]; reflexivity | intros H; injection H; auto].
Qed.

Lemma in_insert_ranked (x y : ChunkId * Z) l :
  In y (insert_ranked x l) <-> y = x \/ In y l.
Proof.
  induction l as [|z rest IH]; cbn [insert_ranked].
  - cbn. intuition.
  - destruct (snd z <=? snd x)%Z; cbn [In]; [intuition|].
    rewrite IH. cbn. intuition.
Qed.

Lemma in_rank (y : ChunkId * Z) l : In y (rank l) <-> In y l.
Proof.
  unfold rank. induction l as [|x rest IH]; cbn [fold_right]; [reflexivity|].
  rewrite in_insert_ranked, IH. cbn. intuition.
Qed.

Lemma in_firstn {A : Type} (n : nat) (x : A) (l : list A) :
  In x (firstn n l) -> In x l.
Proof.
  intros H. rewrite <- (firstn_skipn n l). apply in_or_app. now left.
Qed.

(** Every hit of a search is an entry of the index. *)
Lemma search_in_index (score : Vector -> Vector -> Z) q k idx hit :
  In hit (search score q k idx) ->
  exists e, In e idx /\ embedding_chunk_id e = fst hit.
Proof.
  unfold search. intros H. apply in_firstn, in_rank, in_map_iff in H.
  destruct H as (e & <- & He). now exists e.
Qed.

End Index.

Section Sessions.

Lemma least_recently_updated_some (l : list Session) :
  l <> [] -> exists v, least_recently_updated l = Some v.
Proof.
  destruct l as [|s rest]; [congruence|]. intros _. cbn.
  destruct (least_recently_updated rest) as [m|]; [|eauto].
  destruct (last_updated s <=? last_updated m)%nat; eauto.
Qed.

(** The session [evict] drops is the least-recently-updated one, and
    nothing else goes. *)
Lemma evict_spec (l : list Session) (v : Session) :
  least_recently_updated l = Some v ->
  Permutation l (v :: evict l) /\
  forall s, In s l -> (last_updated v <= last_updated s)%nat.
Proof.
  revert v. induction l as [|s rest IH]; intros v; cbn; [discriminate|].
  destruct (least_recently_updated rest) as [m|] eqn:Hm.
  - destruct (IH m eq_refl) as [Hperm Hmin].
    destruct (Nat.leb_spec (last_updated s) (last_updated m)); intros [= <-].
    + split; [reflexivity|]. intros x [<-|Hx]; [lia|].
      specialize (Hmin x Hx). lia.
    + split.
      * rewrite Hperm at 1. apply perm_swap.
      * intros x [<-|Hx]; [lia | now apply Hmin].
  - intros [= <-]. destruct rest as [|r rest'].
    + split; [reflexivity|]. intros x [<-|[]]. lia.
    + exfalso. destruct (@least_recently_updated_some (r :: rest')) as [v Hv];
        congruence.
Qed.

Lemma length_evict (l : list Session) : List.length (evict l) = pred (List.length l).
Proof.
  destruct l as [|s rest]; [reflexivity|].
  destruct (@least_recently_updated_some (s :: rest)) as [v Hv]; [discriminate|].
  destruct (evict_spec _ Hv) as [Hperm _].
  apply Permutation_length in Hperm. cbn [List.length pred] in *. lia.
Qed.

End Sessions.

Section Engine.

Variable Vector : Type.
Variable decode : string -> list Byte.byte -> option string.
Variable split : string -> list (string * (nat * nat)).
Variable embed : nat -> string -> option Vector.
Variable model : string.
Variable score : Vector -> Vector -> Z.
Variable assemble : list string -> list Message -> string -> string.
Variable generate : string -> option string.
Variable retrieval_k : nat.
Variable history_window : nat.
Variable default_title : string.

Local Notation Backend := (Backend Vector).
Local Notation ingest := (ingest decode split embed model).
Local Notation ingest_document := (ingest_document decode split embed model).
Local Notation ingest_chunks := (ingest_chunks decode split embed model).
Local Notation ingest_embeddings := (ingest_embeddings decode split embed model).
Local Notation upload := (upload decode split embed model).
Local Notation reprocess := (reprocess decode split embed model).
Local Notation answer :=
  (answer embed model score assemble generate retrieval_k history_window
          default_title).
Local Notation exec :=
  (exec decode split embed model score assemble generate retrieval_k
        history_window default_title).
Local Notation exec_all :=
  (exec_all decode split embed model score assemble generate retrieval_k
            history_window default_title).
Local Notation reachable :=
  (reachable decode split embed model score assemble generate retrieval_k
             history_window default_title).

Implicit Types (b : Backend) (d : Document) (c : Chunk).

(** *** The pipeline on one document *)

Lemma make_chunks_owned (id : string) pieces c :
  In c (make_chunks id pieces) -> document_id c = id /\ fst (chunk_id c) = id.
Proof.
  unfold make_chunks. intros H. apply in_map_iff in H as (p & <- & _).
  split; reflexivity.
Qed.

Lemma embed_chunks_backed (t : nat) (cs : list Chunk) (e : Embedding Vector) :
  In e (embed_chunks embed model t cs) ->
  exists c, In c cs /\ chunk_id c = embedding_chunk_id e.
Proof.
  induction cs as [|c rest IH]; cbn [embed_chunks]; [intros []|].
  destruct (embed t (text c)) as [v|].
  - intros [<-|H]; [exists c; split; [now left | reflexivity]|].
    destruct (IH H) as (c' & Hc' & E). exists c'. split; [now right | exact E].
  - intros H. destruct (IH H) as (c' & Hc' & E). exists c'.
    split; [now right | exact E].
Qed.

Lemma ingest_document_eq t d :
  exists st, ingest_document t d = with_status st d.
Proof.
  unfold Backend.ingest_document, Backend.ingest.
  destruct (decode (filename d) (content d)) as [txt|]; [|now exists Failed].
  destruct (all_embedded embed _ _); cbn; eauto.
Qed.

Lemma ingest_document_id t d : doc_id (ingest_document t d) = doc_id d.
Proof. destruct (ingest_document_eq t d) as [st ->]. reflexivity. Qed.

Lemma ingest_document_name t d : filename (ingest_document t d) = filename d.
Proof. destruct (ingest_document_eq t d) as [st ->]. reflexivity. Qed.

(** The chunks of a document do not depend on the embedding service. *)
Lemma ingest_chunks_eq t d : ingest_chunks t d = chunks_of decode split d.
Proof.
  unfold Backend.ingest_chunks, Backend.ingest, chunks_of.
  destruct (decode (filename d) (content d)) as [txt|]; [|reflexivity].
  now destruct (all_embedded embed _ _).
Qed.

Lemma ingest_embeddings_eq t d :
  ingest_embeddings t d = embed_chunks embed model t (chunks_of decode split d).
Proof.
  unfold Backend.ingest_embeddings, Backend.ingest, chunks_of.
  destruct (decode (filename d) (content d)) as [txt|]; [|reflexivity].
  now destruct (all_embedded embed _ _).
Qed.

Lemma ingest_chunks_owned t d c :
  In c (ingest_chunks t d) -> document_id c = doc_id d /\ fst (chunk_id c) = doc_id d.
Proof.
  rewrite ingest_chunks_eq. unfold chunks_of.
  destruct (decode (filename d) (content d)) as [txt|]; [|intros []].
  apply make_chunks_owned.
Qed.

Lemma ingest_embeddings_backed t d (e : Embedding Vector) :
  In e (ingest_embeddings t d) ->
  exists c, In c (ingest_chunks t d) /\ chunk_id c = embedding_chunk_id e.
Proof.
  rewrite ingest_embeddings_eq, ingest_chunks_eq. apply embed_chunks_backed.
Qed.

(** Two runs of the embedding service that answer alike on the chunks
    give the same vectors and the same verdict. *)
Lemma embed_chunks_agree (t t' : nat) (cs : list Chunk) :
  (forall c, In c cs -> embed t' (text c) = embed t (text c)) ->
  embed_chunks embed model t' cs = embed_chunks embed model t cs /\
  all_embedded embed t' cs = all_embedded embed t cs.
Proof.
  induction cs as [|c rest IH]; intros H; [now split|].
  destruct IH as [IH1 IH2]; [intros x Hx; apply H; now right|].
  cbn [embed_chunks all_embedded forallb].
  rewrite (H c (or_introl eq_refl)). fold (all_embedded embed t' rest).
  fold (all_embedded embed t rest). rewrite IH1, IH2. now split.
Qed.

(** The pipeline looks at the name and the content of a document, not at
    its status; run at two times at which the embedding service answers
    alike on the chunks of the document, it gives the same result. *)
Lemma ingest_with_status (t t' : nat) st d :
  (forall c, In c (chunks_of decode split d) ->
             embed t' (text c) = embed t (text c)) ->
  ingest t' (with_status st d) = ingest t d.
Proof.
  unfold Backend.ingest, chunks_of.
  cbn [filename content doc_id with_status].
  destruct (decode (filename d) (content d)) as [txt|]; [|reflexivity].
  intros H. destruct (embed_chunks_agree _ H) as [-> ->].
  now destruct (all_embedded embed t _).
Qed.

(** *** Every call keeps the state consistent *)

Lemma consistent_empty : consistent (empty Vector).
Proof. split; cbn; try (intros ? []). unfold session_cap. lia. Qed.

(** A call that leaves documents, chunks and index alone keeps the state
    consistent if it keeps the session cap. *)
Lemma consistent_frame b b' :
  documents b' = documents b -> chunks b' = chunks b -> index b' = index b ->
  (List.length (sessions b') <= session_cap)%nat ->
  consistent b -> consistent b'.
Proof.
  intros Hd Hc Hi Hs [H1 H2 H3 H4 _].
  split; rewrite ?Hd, ?Hc, ?Hi; assumption.
Qed.

Lemma consistent_upload name bytes b :
  consistent b -> consistent (snd (upload name bytes b)).
Proof.
  intros Hb. unfold Backend.upload.
  destruct (existsb (has_name name) (documents b)); [exact Hb|].
  set (d0 := mkDocument name name (now b) (List.length bytes) Pending bytes).
  pose proof (ingest_document_id (now b) d0) as Hid.
  pose proof (ingest_document_name (now b) d0) as Hname.
  pose proof (@ingest_chunks_owned (now b) d0) as Hcs.
  pose proof (@ingest_embeddings_backed (now b) d0) as Hes.
  unfold Backend.ingest_document, Backend.ingest_chunks,
    Backend.ingest_embeddings in *.
  destruct (ingest (now b) d0) as [[[d cs] es] failure]. cbn [fst snd] in *.
  destruct Hb as [H1 H2 H3 H4 H5].
  split; cbn [documents chunks index sessions].
  - intros x Hx. apply in_app_or in Hx as [Hx|[<-|[]]]; [auto|].
    now rewrite Hid, Hname.
  - intros c Hc. apply in_app_or in Hc as [Hc|Hc].
    + destruct (H2 c Hc) as (x & Hx & E). exists x.
      split; [apply in_or_app; now left | exact E].
    + exists d. split; [apply in_or_app; right; now left|].
      destruct (Hcs c Hc) as [E _]. now rewrite Hid, E.
  - intros c Hc. apply in_app_or in Hc as [Hc|Hc]; [auto|].
    destruct (Hcs c Hc) as [E1 E2]. now rewrite E1, E2.
  - intros e He. apply in_upsert_all in He as [He|He].
    + destruct (Hes e He) as (c & Hc & E). exists c.
      split; [apply in_or_app; now right | exact E].
    + destruct (H4 e He) as (c & Hc & E). exists c.
      split; [apply in_or_app; now left | exact E].
  - exact H5.
Qed.

Lemma existsb_chunk_id (id : ChunkId) (ids : list ChunkId) :
  existsb (chunk_id_eqb id) ids = true <-> In id ids.
Proof.
  rewrite existsb_exists. split.
  - intros (x & Hx & E). apply chunk_id_eqb_eq in E. now subst.
  - intros H. exists id. split; [exact H | now apply chunk_id_eqb_eq].
Qed.

(** What [delete] leaves: no chunk and no vector of the deleted document,
    in a consistent state. *)
Lemma delete_removes name b b' :
  consistent b -> delete name b = (Ok tt, b') ->
  consistent b' /\
  (forall d, In d (documents b') -> filename d <> name) /\
  (forall c, In c (chunks b') -> document_id c <> name) /\
  (forall e : Embedding Vector, In e (index b') -> fst (embedding_chunk_id e) <> name).
Proof.
  intros [H1 H2 H3 H4 H5]. unfold delete.
  destruct (find (has_name name) (documents b)) as [d|] eqn:Hfind; [|discriminate].
  intros [= <-].
  apply find_some in Hfind as [Hd Hn]. unfold has_name in Hn.
  apply String.eqb_eq in Hn.
  assert (Hid : doc_id d = name) by (rewrite (H1 d Hd); exact Hn).
  assert (Hchunks : forall c,
            In c (filter (fun c => negb (owned_by (doc_id d) c)) (chunks b)) ->
            In c (chunks b) /\ document_id c <> name).
  { intros c Hc. apply filter_In in Hc as [Hc Hown]. split; [exact Hc|].
    unfold owned_by in Hown. apply negb_true_iff, String.eqb_neq in Hown.
    congruence. }
  assert (Hindex : forall e : Embedding Vector,
            In e (remove (map chunk_id (filter (owned_by (doc_id d)) (chunks b)))
                         (index b)) ->
            exists c, In c (filter (fun c => negb (owned_by (doc_id d) c)) (chunks b)) /\
                      chunk_id c = embedding_chunk_id e).
  { intros e He. apply in_remove in He as [He Hout].
    destruct (H4 e He) as (c & Hc & E). exists c. split; [|exact E].
    apply filter_In. split; [exact Hc|].
    destruct (owned_by (doc_id d) c) eqn:Hown; [|reflexivity].
    assert (Hin : In (embedding_chunk_id e)
                     (map chunk_id (filter (owned_by (doc_id d)) (chunks b)))).
    { rewrite <- E. apply in_map, filter_In. now split. }
    apply existsb_chunk_id in Hin. congruence. }
  split; [split|]; cbn [documents chunks index sessions].
  - intros x Hx. apply filter_In in Hx as [Hx _]. auto.
  - intros c Hc. destruct (Hchunks c Hc) as [Hc' Hne].
    destruct (H2 c Hc') as (x & Hx & E). exists x. split; [|exact E].
    apply filter_In. split; [exact Hx|].
    unfold has_name. apply negb_true_iff, String.eqb_neq.
    rewrite <- (H1 x Hx). congruence.
  - intros c Hc. destruct (Hchunks c Hc) as [Hc' _]. auto.
  - exact Hindex.
  - exact H5.
  - split; [|split].
    + intros x Hx. apply filter_In in Hx as [_ Hx].
      unfold has_name in Hx. now apply negb_true_iff, String.eqb_neq in Hx.
    + intros c Hc. now destruct (Hchunks c Hc).
    + intros e He. destruct (Hindex e He) as (c & Hc & E).
      destruct (Hchunks c Hc) as [Hc' Hne].
      rewrite <- E, (H3 c Hc'). exact Hne.
Qed.

Lemma consistent_delete name b :
  consistent b -> consistent (snd (delete name b)).
Proof.
  intros Hb. destruct (delete name b) as [[[]|e] b'] eqn:E.
  - now destruct (delete_removes _ Hb E).
  - unfold delete in E.
    destruct (find (has_name name) (documents b)); [discriminate|].
    now injection E as _ <-.
Qed.

Lemma consistent_reprocess b :
  consistent b -> consistent (snd (reprocess b)).
Proof.
  intros [H1 H2 H3 H4 H5]. unfold Backend.reprocess. cbn [snd].
  split; cbn [documents chunks index sessions].
  - intros x Hx. apply in_map_iff in Hx as (d & <- & Hd).
    rewrite ingest_document_id, ingest_document_name. auto.
  - intros c Hc. apply in_flat_map in Hc as (d & Hd & Hc).
    exists (ingest_document (now b) d). split; [now apply in_map|].
    rewrite ingest_document_id. now destruct (ingest_chunks_owned _ _ _ Hc).
  - intros c Hc. apply in_flat_map in Hc as (d & Hd & Hc).
    destruct (ingest_chunks_owned _ _ _ Hc) as [E1 E2]. now rewrite E1, E2.
  - intros e He. unfold rebuild in He.
    apply in_upsert_all in He as [He|[]].
    apply in_flat_map in He as (d & Hd & He).
    destruct (ingest_embeddings_backed _ _ _ He) as (c & Hc & E).
    exists c. split; [|exact E]. apply in_flat_map. now exists d.
  - exact H5.
Qed.

Lemma length_create ttl b :
  (List.length (sessions b) <= session_cap)%nat ->
  (List.length (sessions (snd (create ttl b))) <= session_cap)%nat.
Proof.
  intros H. unfold create. cbn [snd sessions].
  rewrite length_app. cbn [List.length].
  destruct (Nat.leb_spec session_cap (List.length (sessions b))).
  - rewrite length_evict. unfold session_cap in *. lia.
  - lia.
Qed.

Lemma consistent_create ttl b : consistent b -> consistent (snd (create ttl b)).
Proof.
  intros Hb. apply consistent_frame with (b := b); try reflexivity; [|exact Hb].
  apply length_create, Hb.
Qed.

Lemma consistent_delete_session id b :
  consistent b -> consistent (delete_session id b).
Proof.
  intros Hb. apply consistent_frame with (b := b); try reflexivity; [|exact Hb].
  cbn [delete_session sessions].
  pose proof (filter_length_le (fun s => negb (has_id id s)) (sessions b)).
  pose proof (sessions_capped Hb). lia.
Qed.

Lemma consistent_append_message id m b :
  consistent b -> consistent (snd (append_message id m b)).
Proof.
  intros Hb. unfold append_message.
  destruct (find (has_id id) (sessions b)); [|exact Hb]. cbn [snd].
  apply consistent_frame with (b := b); try reflexivity; [|exact Hb].
  cbn [sessions]. rewrite length_map. apply Hb.
Qed.

Lemma consistent_call_generation prompt b :
  consistent b -> consistent (call_generation prompt b).
Proof.
  intros Hb. apply consistent_frame with (b := b); try reflexivity; [|exact Hb]. apply Hb.
Qed.

Lemma consistent_answer query sid b :
  consistent b -> consistent (snd (answer query sid b)).
Proof.
  intros Hb. unfold Backend.answer.
  set (opened := match sid with
                 | Some id => match find (has_id id) (sessions b) with
                              | Some s => (s, b)
                              | None => create default_title b
                              end
                 | None => create default_title b
                 end).
  assert (H1 : consistent (snd opened)).
  { subst opened. destruct sid as [id|]; [|now apply consistent_create].
    destruct (find (has_id id) (sessions b)); [exact Hb|].
    now apply consistent_create. }
  clearbody opened.
  destruct (embed (now b) query); [|exact H1].
  destruct (existsb _ (index (snd opened))); [exact H1|].
  destruct (negb (is_available (index (snd opened)))); [exact H1|].
  destruct (generate _); cbn [snd].
  - now apply consistent_append_message, consistent_append_message,
      consistent_call_generation.
  - now apply consistent_call_generation.
Qed.

Lemma consistent_exec b (c : Call) : consistent b -> consistent (exec b c).
Proof.
  intros Hb. destruct c; cbn [Backend.exec].
  - now apply consistent_upload.
  - now apply consistent_delete.
  - now apply consistent_reprocess.
  - now apply consistent_create.
  - now apply consistent_delete_session.
  - now apply consistent_answer.
Qed.

Lemma consistent_exec_all (cs : list Call) b :
  consistent b -> consistent (exec_all cs b).
Proof.
  revert b. induction cs as [|c rest IH]; intros b Hb; [exact Hb|].
  cbn. apply IH. now apply consistent_exec.
Qed.

(** Every state the backend reaches is consistent. *)
Lemma reachable_consistent b : reachable b -> consistent b.
Proof. intros [cs ->]. apply consistent_exec_all, consistent_empty. Qed.

(** *** Sessions: the cap and the eviction *)

(** C6: in every state the backend reaches at most 50 sessions are
    retained; and when 50 are retained, so that one more would make 51,
    [create] first evicts exactly one session, the least-recently-updated
    one: the others all stay, the new session is added, and 50 sessions
    are retained again. *)
Theorem session_cap_respected b :
  reachable b ->
  (List.length (sessions b) <= 50)%nat /\
  forall ttl,
    List.length (sessions b) = 50%nat ->
    exists victim,
      least_recently_updated (sessions b) = Some victim /\
      (forall s, In s (sessions b) -> (last_updated victim <= last_updated s)%nat) /\
      Permutation (sessions b) (victim :: evict (sessions b)) /\
      sessions (snd (create ttl b)) = (evict (sessions b) ++ [fst (create ttl b)])%list /\
      List.length (sessions (snd (create ttl b))) = 50%nat.
Proof.
  intros Hr. apply reachable_consistent in Hr.
  split; [exact (sessions_capped Hr)|].
  intros ttl Hlen.
  destruct (@least_recently_updated_some (sessions b)) as [v Hv].
  { intros E. rewrite E in Hlen. discriminate. }
  destruct (evict_spec _ Hv) as [Hperm Hmin].
  exists v. repeat split; try assumption.
  - unfold create. cbn [snd fst sessions]. unfold session_cap.
    rewrite Hlen. reflexivity.
  - unfold create. cbn [snd sessions]. unfold session_cap. rewrite Hlen.
    cbn [Nat.leb]. rewrite length_app, length_evict, Hlen. reflexivity.
Qed.

(** *** Reprocess *)

(** A second run of the pipeline on a document the first run has
    marked, at a time at which the embedding service answers for the
    chunks of the document as it did to the first run. *)
Lemma ingest_again (t t' : nat) d :
  (forall c, In c (chunks_of decode split d) ->
             embed t' (text c) = embed t (text c)) ->
  ingest t' (ingest_document t d) = ingest t d.
Proof.
  intros H. destruct (ingest_document_eq t d) as [st ->].
  now apply ingest_with_status.
Qed.

Lemma flat_map_map_ext {A B C : Type} (f : B -> list C) (g : A -> B)
      (h : A -> list C) (l : list A) :
  (forall x, In x l -> f (g x) = h x) -> flat_map f (map g l) = flat_map h l.
Proof.
  induction l as [|x rest IH]; intros H; [reflexivity|].
  cbn [map flat_map]. rewrite IH, (H x (or_introl eq_refl)); [reflexivity|].
  intros y Hy. apply H. now right.
Qed.

(** C7: [reprocess] run a second time, with no change to the documents
    in between and with an embedding service that answers for every chunk
    of the stored documents as it answered to the first run, gives the
    index of the first run (the same entries, so the same chunk ids and the
    same vectors, in the same order), and with it the same chunks,
    documents and count of failures. *)
Theorem reprocess_idempotent b :
  (forall d c, In d (documents b) -> In c (chunks_of decode split d) ->
               embed (S (now b)) (text c) = embed (now b) (text c)) ->
  index (snd (reprocess (snd (reprocess b)))) = index (snd (reprocess b)) /\
  chunks (snd (reprocess (snd (reprocess b)))) = chunks (snd (reprocess b)) /\
  documents (snd (reprocess (snd (reprocess b)))) = documents (snd (reprocess b)) /\
  fst (reprocess (snd (reprocess b))) = fst (reprocess b).
Proof.
  intros Hsame.
  assert (Hagain : forall d, In d (documents b) ->
            ingest (S (now b)) (ingest_document (now b) d) = ingest (now b) d).
  { intros d Hd. apply ingest_again. intros c Hc. now apply (Hsame d). }
  assert (Hdocs : map (ingest_document (S (now b)))
                      (map (ingest_document (now b)) (documents b)) =
                  map (ingest_document (now b)) (documents b)).
  { rewrite map_map. apply map_ext_in. intros d Hd.
    unfold Backend.ingest_document at 1. now rewrite Hagain. }
  unfold Backend.reprocess. cbn [snd fst documents chunks index now].
  rewrite Hdocs.
  rewrite (flat_map_map_ext (ingest_embeddings (S (now b)))
             (ingest_document (now b)) (ingest_embeddings (now b))),
          (flat_map_map_ext (ingest_chunks (S (now b)))
             (ingest_document (now b)) (ingest_chunks (now b))).
  - repeat split; reflexivity.
  - intros d Hd. unfold Backend.ingest_chunks at 1. now rewrite Hagain.
  - intros d Hd. unfold Backend.ingest_embeddings at 1. now rewrite Hagain.
Qed.

(** *** Delete *)

(** C8: when [delete] returns, the state it returns holds no chunk and no
    vector of the deleted document; and after any further calls, every
    hit of every search is a chunk of the store whose document is in the
    store. *)
Theorem delete_referential_integrity b name b' :
  reachable b -> delete name b = (Ok tt, b') ->
  (forall c, In c (chunks b') -> document_id c <> name) /\
  (forall e : Embedding Vector, In e (index b') -> fst (embedding_chunk_id e) <> name) /\
  forall (after : list Call) q k hit,
    In hit (search score q k (index (exec_all after b'))) ->
    refers_to_stored_document (exec_all after b') (fst hit).
Proof.
  intros Hr Hdel. apply reachable_consistent in Hr.
  destruct (delete_removes _ Hr Hdel) as (Hb' & _ & Hc & He).
  split; [exact Hc|]. split; [exact He|].
  intros after q k hit Hhit.
  pose proof (consistent_exec_all after Hb') as Hafter.
  apply search_in_index in Hhit as (e & Hin & E).
  destruct (index_backed Hafter e Hin) as (c & Hcin & Ec).
  exists c. split; [exact Hcin|]. split; [congruence|].
  exact (chunks_owned Hafter c Hcin).
Qed.

(** *** Status and query *)

(** The status is derived from the state. *)
Lemma status_derived b :
  (available (vector_store_status b) = true <-> index b <> []) /\
  status_document_count (vector_store_status b) =
    List.length (filter (fun d => is_indexed (status d)) (documents b)).
Proof.
  split; [|reflexivity]. cbn. destruct (index b); cbn; split; congruence.
Qed.


(** A consistent state without documents has an empty index. *)
Lemma no_documents_empty_index b :
  consistent b -> documents b = [] -> index b = [].
Proof.
  intros Hb Hdocs. destruct (index b) as [|e rest] eqn:E; [reflexivity|].
  destruct (index_backed Hb e) as (c & Hc & _); [rewrite E; now left|].
  destruct (chunks_owned Hb c Hc) as (d & Hd & _).
  rewrite Hdocs in Hd. destruct Hd.
Qed.

(** *** Upload is incremental *)

Lemma upsert_keeps (e x : Embedding Vector) idx :
  In x idx -> embedding_chunk_id x <> embedding_chunk_id e -> In x (upsert e idx).
Proof.
  intros Hx Hne. induction idx as [|y rest IH]; [destruct Hx|].
  cbn [upsert].
  destruct (chunk_id_eqb (embedding_chunk_id y) (embedding_chunk_id e)) eqn:E.
  - destruct Hx as [->|Hx]; [|now right].
    apply chunk_id_eqb_eq in E. contradiction.
  - destruct Hx as [->|Hx]; [now left | right; auto].
Qed.




(** The upload of a new document adds vectors of that document only,
    and every vector that was in the index stays: nothing is rebuilt. *)
Lemma upload_incremental name bytes b :
  consistent b -> existsb (has_name name) (documents b) = false ->
  (forall e : Embedding Vector, In e (index b) -> In e (index (snd (upload name bytes b)))) /\
  (forall e : Embedding Vector, In e (index (snd (upload name bytes b))) ->
     In e (index b) \/ fst (embedding_chunk_id e) = name).
Proof.
  intros Hb Hnew. unfold Backend.upload. rewrite Hnew.
  set (d0 := mkDocument name name (now b) (List.length bytes) Pending bytes).
  pose proof (@ingest_chunks_owned (now b) d0) as Hcs.
  pose proof (@ingest_embeddings_backed (now b) d0) as Hes.
  unfold Backend.ingest_chunks, Backend.ingest_embeddings in *.
  destruct (ingest (now b) d0) as [[[d cs] es] failure]. cbn [fst snd index] in *.
  assert (Hown : forall e, In e es -> fst (embedding_chunk_id e) = name).
  { intros e He. destruct (Hes e He) as (c & Hc & <-).
    now destruct (Hcs c Hc). }
  split.
  - intros e He.
    assert (Hold : fst (embedding_chunk_id e) <> name).
    { destruct (index_backed Hb e He) as (c & Hc & <-).
      rewrite (chunks_keyed Hb c Hc).
      destruct (chunks_owned Hb c Hc) as (x & Hx & <-).
      rewrite (docs_named Hb x Hx). intros E.
      assert (Hex : existsb (has_name name) (documents b) = true).
      { apply existsb_exists. exists x. split; [exact Hx|].
        now apply String.eqb_eq. }
      congruence. }
    clear Hes. revert Hown He. generalize (index b) as idx.
    unfold upsert_all. induction es as [|e' rest IH]; intros idx Hown He; [exact He|].
    cbn [fold_left]. apply IH.
    + intros x Hx. apply Hown. now right.
    + apply upsert_keeps; [exact He|]. intros E.
      apply Hold. rewrite E. apply Hown. now left.
  - intros e He. apply in_upsert_all in He as [He|He]; [right; auto | now left].
Qed.

End Engine.

End BackendFacts.

(* ================================================================== *)
(** ** The rest of the component: every handler, on every answer *)
(* ================================================================== *)

Module Coverage.
Import Js Client JsFacts ClientFacts.

#[local] Hint Unfold
  showNotification loadUploadedFiles checkChatStatus loadChatSessions
  loadChatSession createNewChat deleteChatSession uploadFile sendMessage
  deleteFile reprocessDocuments handleKeyPress copyToClipboard
  setSidebarOpen setHistoryDrawerOpen setMessages setInputMessage setLoading
  setUploadedFiles setChatStatus setDragOver setNotification setCopiedIndex
  setCurrentPage setChatSessions setCurrentSessionId : handlers.

Lemma filter_any (l : list Request) : filter any_request l = l.
Proof. induction l as [|r l IH]; [reflexivity|]. cbn. now rewrite IH. Qed.

Lemma jsstring_eqb_eq (a b : jsstring) : jsstring_eqb a b = true <-> a = b.
Proof.
  revert b. induction a as [|x a IH]; intros [|y b]; cbn; try (split; congruence).
  rewrite andb_true_iff, N.eqb_eq, IH. split; [intros [-> ->]; reflexivity|].
  intros [= -> ->]. now split.
Qed.

(** Evaluation of a handler, the un-awaited reloads left folded. *)
Ltac run_handler :=
  cbv [negb orb andb bind ret modify emit fetch json prop finally try_catch
       setMessages setInputMessage setLoading setCurrentSessionId spawn
       setUploadedFiles setChatSessions setChatStatus setCopiedIndex
       showNotification setNotification throw];
  cbn [state trace snd fst].

Ltac notifications_side :=
  let H := fresh in
  intros ? H; cbn [state trace] in *;
  first [ exact H
        | rewrite notifications_app; cbn; rewrite app_nil_r; exact H ].

Section WithNetwork.

Variable net : Network.

(** A request sent at the head of a [try] block, and no other of its
    kind after it. *)
Lemma fetch_exactly {A} (p : Request -> bool) (r : Request)
      (k : Response -> M A) (h : Exception -> M A) (w : World) :
  p r = true ->
  (forall resp, sends_no p (k resp)) -> (forall e, sends_no p (h e)) ->
  filter p (requests (trace (snd (try_catch (bind (fetch net r) k) h w)))) =
  filter p (requests (trace w)) ++ [r].
Proof.
  intros Hp Hk Hh.
  unfold try_catch, fetch. unfold bind, emit.
  set (w0 := mkWorld (state w) (trace w ++ [Fetch r])).
  assert (H0 : filter p (requests (trace w0)) = filter p (requests (trace w)) ++ [r]).
  { cbn [w0 trace]. rewrite requests_app, filter_app. cbn. now rewrite Hp. }
  clearbody w0. rewrite <- H0.
  destruct (net r) as [m|resp]; cbn [throw ret].
  - apply Hh.
  - specialize (Hk resp w0).
    destruct (k resp w0) as [[a|e] w']; cbn [snd] in *; [exact Hk|].
    now rewrite Hh.
Qed.

Lemma loadUploadedFiles_sends (w : World) :
  requests (trace (snd (loadUploadedFiles net w))) = requests (trace w) ++ [listRequest].
Proof.
  rewrite <- (filter_any (requests (trace (snd _)))), <- (filter_any (requests (trace w))).
  apply fetch_exactly; [reflexivity | intros resp | intros e]; sends_no_tac.
Qed.

Lemma checkChatStatus_sends (w : World) :
  requests (trace (snd (checkChatStatus net w))) = requests (trace w) ++ [statusRequest].
Proof.
  rewrite <- (filter_any (requests (trace (snd _)))), <- (filter_any (requests (trace w))).
  apply fetch_exactly; [reflexivity | intros resp | intros e]; sends_no_tac.
Qed.

Lemma loadChatSessions_sends (w : World) :
  requests (trace (snd (loadChatSessions net w))) = requests (trace w) ++ [sessionsRequest].
Proof.
  rewrite <- (filter_any (requests (trace (snd _)))), <- (filter_any (requests (trace w))).
  apply fetch_exactly; [reflexivity | intros resp | intros e]; sends_no_tac.
Qed.

(** [loadChatSessions] tells the user nothing, whatever happens. *)
Lemma loadChatSessions_quiet (w : World) :
  notifications (trace (snd (loadChatSessions net w))) = notifications (trace w).
Proof.
  assert (H : preserves (fun w' => notifications (trace w') = notifications (trace w))
                        (loadChatSessions net)).
  { preserves_with notifications_side. }
  exact (H w eq_refl).
Qed.

Lemma finally_setLoading {A} (m : M A) (w : World) :
  loading (state (snd (finally m (setLoading false) w))) = false.
Proof. unfold finally. now destruct (m w) as [r w']. Qed.

(** *** [sendMessage] *)

(** Past its guard [sendMessage] adds one query to the requests made so
    far, and only one. *)
Lemma sendMessage_adds_one_query (s : State) (w : World) :
  blank (inputMessage s) = false -> loading s = false ->
  filter is_chat_query (requests (trace (snd (sendMessage net s w)))) =
  filter is_chat_query (requests (trace w)) ++ [queryRequest s].
Proof.
  intros Hb Hl. unfold sendMessage.
  rewrite truthy_trim, Hb, Hl. cbn [negb orb].
  unfold setMessages at 1. rewrite snd_bind_modify.
  unfold setInputMessage. rewrite snd_bind_modify.
  unfold setLoading at 1. rewrite snd_bind_modify.
  apply (@finally_after _
           (fun w' => filter is_chat_query (requests (trace w')) =
                      filter is_chat_query (requests (trace w)) ++ [queryRequest s])).
  - rewrite fetch_exactly; [reflexivity | reflexivity | intros resp | intros e];
      sends_no_tac.
  - preserves_with requests_side.
Qed.

(** Past its guard [uploadFile] adds one upload to the requests made so
    far, and only one. *)
Lemma uploadFile_adds_one_upload (file : File) (w : World) :
  filter is_upload (requests (trace (snd (uploadFile net file w)))) =
  filter is_upload (requests (trace w)) ++ [uploadRequest file].
Proof.
  unfold uploadFile. unfold setLoading at 1. rewrite snd_bind_modify.
  apply (@finally_after _
           (fun w' => filter is_upload (requests (trace w')) =
                      filter is_upload (requests (trace w)) ++ [uploadRequest file])).
  - rewrite fetch_exactly; [reflexivity | reflexivity | intros resp | intros e];
      sends_no_tac.
  - preserves_with requests_side.
Qed.

Lemma uploadFiles_adds_uploads (files : list File) (w : World) :
  filter is_upload (requests (trace (snd (uploadFiles net files w)))) =
  filter is_upload (requests (trace w)) ++ map uploadRequest files.
Proof.
  revert w. induction files as [|f rest IH]; intros w; cbn [uploadFiles map].
  - now rewrite app_nil_r.
  - unfold bind, spawn. rewrite IH. cbn [snd].
    rewrite uploadFile_adds_one_upload, <- app_assoc. reflexivity.
Qed.

(** X1: a question that is not answered (the request is rejected, the
    status is not 2xx, or the body is not readable JSON) stays in the list
    as the user's message with nothing after it, the current session id
    is kept, the input is emptied, [loading] ends false, and exactly one
    notification is shown. *)
Theorem sendMessage_unanswered (s : State) :
  blank (inputMessage s) = false -> loading s = false ->
  (forall data, succeeds net (queryRequest s) data -> ~ readable data) ->
  messages (final (sendMessage net s) s) =
    messages s ++ [userMessage (inputMessage s)] /\
  currentSessionId (final (sendMessage net s) s) = currentSessionId s /\
  inputMessage (final (sendMessage net s) s) = [] /\
  loading (final (sendMessage net s) s) = false /\
  exists n, notifications (calls (sendMessage net s) s) = [n].
Proof.
  intros Hb Hl Hno. unfold final, calls, run, sendMessage.
  rewrite truthy_trim, Hb, Hl. unfold succeeds, queryRequest in Hno.
  run_handler.
  destruct (net _) as [m|resp] eqn:Hnet.
  { cbn. repeat split; eauto. }
  destruct (json_body resp) as [data|] eqn:Hbody.
  2:{ cbn. repeat split; eauto. }
  destruct (ok resp) eqn:Hok.
  - assert (Hdata : ~ readable data).
    { apply Hno. exists resp. repeat split; assumption. }
    destruct data; try (exfalso; apply Hdata; split; discriminate);
      cbn; repeat split; eauto.
  - destruct data; cbn; repeat split; eauto.
Qed.

(** X2: with a non-blank input and no request in flight, [sendMessage]
    sends exactly one POST to /chat/query, whatever the answer; it
    carries the input as typed and the current session id.  A click on an
    enabled send button sends that one query. *)
Theorem sendMessage_one_query (s : State) :
  (blank (inputMessage s) = false -> loading s = false ->
   filter is_chat_query (requests (calls (sendMessage net s) s)) =
     [mkRequest POST ChatQuery
        (JsonBody (JObj [(lit "message", JStr (inputMessage s));
                         (lit "session_id", currentSessionId s)]))]) /\
  (deliverable s ClickSend = true ->
   filter is_chat_query (requests (snd (step net s ClickSend))) = [queryRequest s]).
Proof.
  assert (H : blank (inputMessage s) = false -> loading s = false ->
              filter is_chat_query (requests (calls (sendMessage net s) s)) =
              [queryRequest s]).
  { intros Hb Hl. unfold calls, run, sendMessage.
    rewrite truthy_trim, Hb, Hl. cbn [negb orb].
    unfold setMessages at 1. rewrite snd_bind_modify.
    unfold setInputMessage. rewrite snd_bind_modify.
    unfold setLoading at 1. rewrite snd_bind_modify.
    apply (@finally_after _
             (fun w => filter is_chat_query (requests (trace w)) = [queryRequest s])).
    - rewrite fetch_exactly; [reflexivity | reflexivity | intros resp | intros e];
        sends_no_tac.
    - preserves_with requests_side. }
  split; [exact H|].
  intros Hd. unfold step. rewrite Hd. cbn [snd handler].
  cbn [deliverable] in Hd. unfold sendDisabled in Hd.
  apply negb_true_iff, orb_false_iff in Hd as [Hd Hl].
  apply orb_false_iff in Hd as [Hb _].
  rewrite truthy_trim, negb_involutive in Hb.
  unfold calls, run, spawn. cbn [snd]. now apply H.
Qed.

(** *** [loading] is released *)

(** X3: [uploadFile] and [reprocessDocuments] end with [loading] false
    whatever the network does, and so does [sendMessage] when no request
    was in flight. *)
Theorem loading_released (s : State) (file : File) :
  loading (final (uploadFile net file) s) = false /\
  loading (final (reprocessDocuments net) s) = false /\
  (loading s = false -> loading (final (sendMessage net s) s) = false).
Proof.
  split; [|split].
  - unfold final, run, uploadFile. unfold setLoading at 1.
    rewrite snd_bind_modify. apply finally_setLoading.
  - unfold final, run, reprocessDocuments. unfold setLoading at 1.
    rewrite snd_bind_modify. apply finally_setLoading.
  - intros Hl. unfold final, run, sendMessage.
    destruct (negb (truthy (JStr (trim (inputMessage s)))) || loading s);
      [exact Hl|].
    unfold setMessages at 1. rewrite snd_bind_modify.
    unfold setInputMessage. rewrite snd_bind_modify.
    unfold setLoading at 1. rewrite snd_bind_modify.
    apply finally_setLoading.
Qed.

(** *** [uploadFile], refused *)

(** X4: when the upload is not answered with a 2xx status and a JSON
    body, the upload request is the only request sent (no refresh and no
    reload), one notification is shown, and nothing else of the state
    changes; with a JSON body and a status that is not 2xx the
    notification is the [detail] of the body, or "Upload failed" when
    that is missing or falsy. *)
Theorem uploadFile_refused (s : State) (file : File) :
  (forall data, ~ succeeds net (uploadRequest file) data) ->
  requests (calls (uploadFile net file) s) = [uploadRequest file] /\
  (exists n,
     notifications (calls (uploadFile net file) s) = [n] /\
     final (uploadFile net file) s = with_loading false (with_notification n s)) /\
  (forall data, answers net (uploadRequest file) data -> readable data ->
     notifications (calls (uploadFile net file) s) =
       [or_else (field data "detail") (str "Upload failed")]).
Proof.
  intros Hno. unfold final, calls, run, uploadFile, uploadRequest, answers, succeeds in *.
  run_handler.
  destruct (net _) as [m|resp] eqn:Hnet.
  { cbn. repeat split; eauto. intros data (r & [=] & _). }
  destruct (json_body resp) as [data|] eqn:Hbody.
  2:{ cbn. repeat split; eauto. intros data (r & [= <-] & Hb). congruence. }
  destruct (ok resp) eqn:Hok.
  { exfalso. apply (Hno data). exists resp. repeat split; assumption. }
  assert (Hsame : forall d, (exists r, Resolved resp = Resolved r /\ json_body r = Some d) ->
                            d = data).
  { intros d (r & [= <-] & Hb). congruence. }
  destruct data; cbn; repeat split; eauto;
    intros d Hd Hr; apply Hsame in Hd; subst d;
    first [ reflexivity | destruct Hr; congruence ].
Qed.

(** *** [deleteFile] and [reprocessDocuments] *)

(** X5: [deleteFile] never reads the body of the answer.  On a 2xx
    status it sends, after the DELETE, the reload of the file list and the
    reload of the status, and tells the user the file is deleted; on any
    other status it sends nothing more and only shows "Failed to delete
    file"; on a rejected request it only shows the error's message. *)
Theorem deleteFile_outcomes (s : State) (filename : value) :
  (answered_ok net (deleteFileRequest filename) true ->
     requests (calls (deleteFile net filename) s) =
       [deleteFileRequest filename; listRequest; statusRequest] /\
     In (JStr (lit "File " ++ to_string filename ++ lit " deleted"))
        (notifications (calls (deleteFile net filename) s))) /\
  (answered_ok net (deleteFileRequest filename) false ->
     run (deleteFile net filename) s =
       (Done tt,
        mkWorld (with_notification (str "Failed to delete file") s)
                [Fetch (deleteFileRequest filename);
                 ShowNotification (str "Failed to delete file")])) /\
  (forall m, net (deleteFileRequest filename) = Rejected m ->
     run (deleteFile net filename) s =
       (Done tt,
        mkWorld (with_notification (JStr (lit "Delete error: " ++ m)) s)
                [Fetch (deleteFileRequest filename);
                 ShowNotification (JStr (lit "Delete error: " ++ m))])).
Proof.
  unfold answered_ok, deleteFileRequest, calls, run, deleteFile.
  split; [|split].
  - intros (resp & Hnet & Hok). run_handler. rewrite Hnet, Hok.
    cbn [state trace snd fst]. split.
    + rewrite checkChatStatus_sends, loadUploadedFiles_sends. reflexivity.
    + apply in_notifications.
      apply (checkChatStatus_grows net _ _), (loadUploadedFiles_grows net _ _).
      cbn. auto.
  - intros (resp & Hnet & Hok). run_handler. now rewrite Hnet, Hok.
  - intros m Hnet. run_handler. now rewrite Hnet.
Qed.

(** X6: [reprocessDocuments] likewise looks at the status only: on 2xx
    it reports success and sends the reload of the status; otherwise the
    POST is the only request and the one notification reports the failure
    or the error's message. *)
Theorem reprocessDocuments_outcomes (s : State) :
  (answered_ok net reprocessRequest true ->
     requests (calls (reprocessDocuments net) s) = [reprocessRequest; statusRequest] /\
     In (str "Documents reprocessed successfully!")
        (notifications (calls (reprocessDocuments net) s))) /\
  (answered_ok net reprocessRequest false ->
     calls (reprocessDocuments net) s =
       [Fetch reprocessRequest; ShowNotification (str "Failed to reprocess documents")] /\
     final (reprocessDocuments net) s =
       with_loading false (with_notification (str "Failed to reprocess documents") s)) /\
  (forall m, net reprocessRequest = Rejected m ->
     calls (reprocessDocuments net) s =
       [Fetch reprocessRequest;
        ShowNotification (JStr (lit "Reprocess error: " ++ m))] /\
     final (reprocessDocuments net) s =
       with_loading false
         (with_notification (JStr (lit "Reprocess error: " ++ m)) s)).
Proof.
  unfold answered_ok, reprocessRequest, calls, final, run, reprocessDocuments.
  split; [|split].
  - intros (resp & Hnet & Hok). run_handler. rewrite Hnet, Hok.
    cbn [state trace snd fst]. split.
    + rewrite checkChatStatus_sends. reflexivity.
    + apply in_notifications, (checkChatStatus_grows net _ _). cbn. auto.
  - intros (resp & Hnet & Hok). run_handler. rewrite Hnet, Hok. now split.
  - intros m Hnet. run_handler. rewrite Hnet. now split.
Qed.

(** *** Sessions *)

(** X7: [deleteChatSession] on a 2xx status reloads the session list,
    shows "Chat session deleted" and nothing else, and empties the
    conversation (no messages, no current session) exactly when the
    deleted session is the current one; on any other status it is
    silent: nothing is shown and the state is as before. *)
Theorem deleteChatSession_outcomes (s : State) (sessionId : value) :
  (answered_ok net (deleteSessionRequest sessionId) true ->
     requests (calls (deleteChatSession net s sessionId) s) =
       [deleteSessionRequest sessionId; sessionsRequest] /\
     notifications (calls (deleteChatSession net s sessionId) s) =
       [str "Chat session deleted"] /\
     (strict_eq (currentSessionId s) sessionId = true ->
        messages (final (deleteChatSession net s sessionId) s) = [] /\
        currentSessionId (final (deleteChatSession net s sessionId) s) = JNull) /\
     (strict_eq (currentSessionId s) sessionId = false ->
        messages (final (deleteChatSession net s sessionId) s) = messages s /\
        currentSessionId (final (deleteChatSession net s sessionId) s) =
          currentSessionId s)) /\
  (answered_ok net (deleteSessionRequest sessionId) false ->
     run (deleteChatSession net s sessionId) s =
       (Done tt, mkWorld s [Fetch (deleteSessionRequest sessionId)])).
Proof.
  unfold answered_ok, deleteSessionRequest, calls, final, run, deleteChatSession.
  split.
  - intros (resp & Hnet & Hok). run_handler. rewrite Hnet, Hok.
    cbn [state trace snd fst].
    destruct (strict_eq (currentSessionId s) sessionId);
      cbn [state trace snd fst]; rewrite ?notifications_app, ?requests_app;
      rewrite loadChatSessions_sends, loadChatSessions_quiet;
      cbn [messages currentSessionId with_notification with_currentSessionId
           with_messages state];
      rewrite ?(loadChatSessions_keeps_messages net),
              ?(loadChatSessions_keeps_session net);
      repeat split; try reflexivity; discriminate.
  - intros (resp & Hnet & Hok). run_handler. now rewrite Hnet, Hok.
Qed.

(** X8: [createNewChat] past its guard sends exactly one POST to
    /chat/new-session.  A status that is not 2xx, with a JSON body, is
    passed over in silence: no notification, the state as before.  A 2xx
    status with the body [null] empties the message list, keeps the
    current session id and shows "Error creating new chat".  A rejected
    request or a body that is not JSON changes nothing but the
    notification. *)
Theorem createNewChat_unanswered (s : State) :
  truthy (currentSessionId s) && (List.length (messages s) =? 0)%nat = false ->
  filter is_new_session (requests (calls (createNewChat net s) s)) = [newSessionRequest] /\
  (forall resp data,
     net newSessionRequest = Resolved resp -> json_body resp = Some data ->
     ok resp = false ->
     run (createNewChat net s) s = (Done tt, mkWorld s [Fetch newSessionRequest])) /\
  (forall resp,
     net newSessionRequest = Resolved resp -> json_body resp = Some JNull ->
     ok resp = true ->
     messages (final (createNewChat net s) s) = [] /\
     currentSessionId (final (createNewChat net s) s) = currentSessionId s /\
     notifications (calls (createNewChat net s) s) = [str "Error creating new chat"]) /\
  ((forall resp, net newSessionRequest = Resolved resp -> json_body resp = None) ->
     final (createNewChat net s) s =
       with_notification (str "Error creating new chat") s).
Proof.
  intros Hguard. unfold newSessionRequest, calls, final, run, createNewChat.
  rewrite Hguard. split; [|split; [|split]].
  - rewrite fetch_exactly; [reflexivity | reflexivity | intros resp | intros e];
      sends_no_tac.
  - intros resp data Hnet Hbody Hok. run_handler. now rewrite Hnet, Hbody, Hok.
  - intros resp Hnet Hbody Hok. run_handler. rewrite Hnet, Hbody, Hok.
    cbn. repeat split.
  - intros Hnone. run_handler.
    destruct (net _) as [m|resp] eqn:Hnet; [reflexivity|].
    now rewrite (Hnone resp eq_refl).
Qed.

(** X9: [loadChatSession] does not look at the status: any answer with a
    readable JSON body, a 404 as well, whose [messages] is an array or
    a falsy value (missing, [null]) makes the clicked session the current
    one and the elements of [messages] (none for a falsy value) the message
    list, with no notification; without a readable body the conversation
    stays and "Error loading chat session" is shown. *)
Theorem loadChatSession_outcomes (s : State) (sessionId : value) :
  (forall data, answers net (sessionRequest sessionId) data -> readable data ->
     array_or_falsy (field data "messages") = true ->
     run (loadChatSession net sessionId) s =
       (Done tt,
        mkWorld (with_currentSessionId sessionId
                   (with_messages (array_or_empty (field data "messages")) s))
                [Fetch (sessionRequest sessionId)])) /\
  ((forall data, answers net (sessionRequest sessionId) data -> ~ readable data) ->
     run (loadChatSession net sessionId) s =
       (Done tt,
        mkWorld (with_notification (str "Error loading chat session") s)
                [Fetch (sessionRequest sessionId);
                 ShowNotification (str "Error loading chat session")])).
Proof.
  unfold answers, sessionRequest, run, loadChatSession. split.
  - intros data (resp & Hnet & Hbody) Hr _. run_handler.
    rewrite Hnet, Hbody, (get_readable _ Hr). reflexivity.
  - intros Hno. run_handler.
    destruct (net _) as [m|resp] eqn:Hnet; [reflexivity|].
    destruct (json_body resp) as [data|] eqn:Hbody; [|reflexivity].
    assert (Hdata : ~ readable data) by (apply Hno; now exists resp).
    destruct data; try reflexivity; exfalso; apply Hdata; split; discriminate.
Qed.

(** X10: [loadUploadedFiles] likewise ignores the status: a readable
    JSON body whose [files] is an array or a falsy value (missing,
    [null]) replaces the file list by the elements of [files] (no files
    for a falsy value), and nothing else changes; without a readable body
    the list is kept and "Error loading files" is shown. *)
Theorem loadUploadedFiles_outcomes (s : State) :
  (forall data, answers net listRequest data -> readable data ->
     array_or_falsy (field data "files") = true ->
     run (loadUploadedFiles net) s =
       (Done tt,
        mkWorld (with_uploadedFiles (array_or_empty (field data "files")) s)
                [Fetch listRequest])) /\
  ((forall data, answers net listRequest data -> ~ readable data) ->
     run (loadUploadedFiles net) s =
       (Done tt,
        mkWorld (with_notification (str "Error loading files") s)
                [Fetch listRequest; ShowNotification (str "Error loading files")])).
Proof.
  unfold answers, listRequest, run, loadUploadedFiles. split.
  - intros data (resp & Hnet & Hbody) Hr _. run_handler.
    rewrite Hnet, Hbody, (get_readable _ Hr). reflexivity.
  - intros Hno. run_handler.
    destruct (net _) as [m|resp] eqn:Hnet; [reflexivity|].
    destruct (json_body resp) as [data|] eqn:Hbody; [|reflexivity].
    assert (Hdata : ~ readable data) by (apply Hno; now exists resp).
    destruct data; try reflexivity; exfalso; apply Hdata; split; discriminate.
Qed.

(** X11: [loadChatSessions] never shows a notification and never writes
    anything but the session list: after it the state is the one before
    with, at most, another session list; a failure leaves the list as it
    was; a readable body whose [sessions] is an array or a falsy value
    (missing, [null]) makes the elements of [sessions] the list. *)
Theorem loadChatSessions_outcomes (s : State) :
  notifications (calls (loadChatSessions net) s) = [] /\
  (exists l, final (loadChatSessions net) s = with_chatSessions l s) /\
  ((forall data, answers net sessionsRequest data -> ~ readable data) ->
     final (loadChatSessions net) s = s) /\
  (forall data, answers net sessionsRequest data -> readable data ->
     array_or_falsy (field data "sessions") = true ->
     final (loadChatSessions net) s =
       with_chatSessions (array_or_empty (field data "sessions")) s).
Proof.
  split; [apply (loadChatSessions_quiet (mkWorld s []))|].
  unfold answers, sessionsRequest, final, run, loadChatSessions.
  assert (Hs : s = with_chatSessions (chatSessions s) s) by now destruct s.
  run_handler.
  destruct (net _) as [m|resp] eqn:Hnet.
  { cbn. split; [eauto|]. split; [reflexivity|].
    intros data (r & [=] & _). }
  destruct (json_body resp) as [data|] eqn:Hbody.
  2:{ cbn. split; [eauto|]. split; [reflexivity|].
      intros data (r & [= <-] & Hb). congruence. }
  assert (Hsame : forall d, (exists r, Resolved resp = Resolved r /\ json_body r = Some d) ->
                            d = data).
  { intros d (r & [= <-] & Hb). congruence. }
  destruct data; cbn;
    (split; [eauto|]); split;
    try reflexivity;
    try (intros Hno; exfalso; apply (Hno _ (ex_intro _ resp (conj eq_refl Hbody)));
         split; discriminate);
    intros d Hd Hr _; apply Hsame in Hd; subst d;
    first [ reflexivity | destruct Hr; congruence ].
Qed.

(** *** The status check and the message box *)

(** X12: a status check that fails (rejected, not 2xx, or no readable
    JSON body) resets the status to [{false, 0}], shows "Unable to check
    system status" and so leaves the message box and the send button
    disabled, whatever the status was before; a check that is answered
    shows nothing and writes nothing but the status. *)
Theorem checkChatStatus_outcomes (s : State) :
  ((forall data, succeeds net statusRequest data -> ~ readable data) ->
     final (checkChatStatus net) s =
       with_notification (str "Unable to check system status")
         (with_chatStatus defaultStatus s) /\
     notifications (calls (checkChatStatus net) s) =
       [str "Unable to check system status"] /\
     inputDisabled (final (checkChatStatus net) s) = true /\
     sendDisabled (final (checkChatStatus net) s) = true) /\
  (forall data, succeeds net statusRequest data -> readable data ->
     run (checkChatStatus net) s =
       (Done tt,
        mkWorld (with_chatStatus
                   {| vectorstore_available :=
                        or_else (field data "vectorstore_available") (JBool false);
                      document_count :=
                        or_else (field data "document_count") (JNum 0) |} s)
                [Fetch statusRequest])).
Proof.
  unfold succeeds, statusRequest, calls, final, run, checkChatStatus. split.
  - intros Hno.
    assert (Hsend : forall st,
              sendDisabled
                (with_notification (str "Unable to check system status")
                   (with_chatStatus defaultStatus st)) = true).
    { intros st. unfold sendDisabled. cbn. now rewrite orb_true_r. }
    run_handler.
    destruct (net _) as [m|resp] eqn:Hnet;
      [repeat split; try reflexivity; apply Hsend|].
    destruct (ok resp) eqn:Hok; cbn [negb];
      [|repeat split; try reflexivity; apply Hsend].
    destruct (json_body resp) as [data|] eqn:Hbody;
      [|repeat split; try reflexivity; apply Hsend].
    assert (Hdata : ~ readable data).
    { apply Hno. exists resp. repeat split; assumption. }
    destruct data;
      try (repeat split; try reflexivity; apply Hsend);
      exfalso; apply Hdata; split; discriminate.
  - intros data (resp & Hnet & Hok & Hbody) Hr. run_handler.
    rewrite Hnet, Hok. cbn [negb]. rewrite Hbody, !(get_readable _ Hr). reflexivity.
Qed.

(** *** Keys and files *)

(** X13: in the message box only Enter without Shift does anything:
    every other key, and Shift+Enter, makes no call and leaves the state
    as it is.  Enter alone with a blank input or while [loading] only
    cancels the default action; otherwise it sends exactly one query. *)
Theorem handleKeyPress_outcomes (s : State) (key : jsstring) (shiftKey : bool) :
  (key <> lit "Enter" \/ shiftKey = true ->
     run (handleKeyPress net s key shiftKey) s = (Done tt, mkWorld s [])) /\
  (blank (inputMessage s) = true \/ loading s = true ->
     run (handleKeyPress net s (lit "Enter") false) s =
       (Done tt, mkWorld s [PreventDefault])) /\
  (blank (inputMessage s) = false -> loading s = false ->
     filter is_chat_query
       (requests (calls (handleKeyPress net s (lit "Enter") false) s)) =
       [queryRequest s]).
Proof.
  split; [|split].
  - intros H. unfold run, handleKeyPress.
    destruct (jsstring_eqb key (lit "Enter")) eqn:E; [|reflexivity].
    apply jsstring_eqb_eq in E.
    destruct H as [H| ->]; [contradiction | reflexivity].
  - intros H. unfold run, handleKeyPress, sendMessage.
    rewrite truthy_trim, negb_involutive.
    assert (E : blank (inputMessage s) || loading s = true).
    { destruct H as [H|H]; rewrite H; [reflexivity | apply orb_true_r]. }
    rewrite E. reflexivity.
  - intros Hb Hl. unfold calls, run, handleKeyPress.
    change (jsstring_eqb (lit "Enter") (lit "Enter")) with true. cbn [andb negb].
    unfold bind, emit, spawn. cbn [snd state trace].
    now rewrite sendMessage_adds_one_query.
Qed.

(** X14: files chosen in the dialog or dropped on the page are uploaded
    one upload each, in their order, whatever the server answers to any
    of them. *)
Theorem uploads_in_order (s : State) (files : list File) :
  filter is_upload (requests (snd (step net s (SelectFiles files)))) =
    map uploadRequest files /\
  filter is_upload (requests (snd (step net s (DropFiles files)))) =
    map uploadRequest files.
Proof.
  unfold step. cbn [deliverable snd handler]. unfold calls, run. split.
  - now rewrite uploadFiles_adds_uploads.
  - unfold bind, emit, setDragOver, modify. cbn [snd state trace].
    now rewrite uploadFiles_adds_uploads.
Qed.

(** X20: once the message box takes text (the index is available and
    no request is in flight), the send button is enabled after the change
    exactly when the text is not blank, and the text is the one typed. *)
Theorem typing_enables_send (s : State) (text : jsstring) :
  deliverable s (ChangeInput text) = true ->
  inputMessage (fst (step net s (ChangeInput text))) = text /\
  deliverable (fst (step net s (ChangeInput text))) ClickSend = negb (blank text).
Proof.
  intros Hd. unfold step. rewrite Hd. cbn [fst handler].
  unfold final, run, setInputMessage, modify. cbn [snd state].
  cbn [deliverable] in Hd. unfold inputDisabled in Hd.
  apply negb_true_iff, orb_false_iff in Hd as [Hav Hl].
  assert (E : forall st, inputMessage st = text ->
                         chatStatus st = chatStatus s -> loading st = loading s ->
                         deliverable st ClickSend = negb (blank text)).
  { intros st Hi Hc Hlo. cbn [deliverable]. unfold sendDisabled.
    rewrite Hi, Hc, Hlo, Hav, Hl, truthy_trim, negb_involutive.
    now rewrite !orb_false_r. }
  unfold resetPagination.
  destruct ((totalPages (with_inputMessage text s) <=?
             currentPage (with_inputMessage text s))%Z &&
            (0 <? totalPages (with_inputMessage text s))%Z);
    (split; [reflexivity | apply E; reflexivity]).
Qed.

(** X21: "New Chat" twice in a row opens one session only: after a
    first call that was answered with a 2xx status and a truthy
    [session_id], a second call, on any network, is stopped by the guard
    and sends nothing. *)
Theorem createNewChat_twice (later : Network) (s : State) (data : value) :
  truthy (currentSessionId s) && (List.length (messages s) =? 0)%nat = false ->
  succeeds net newSessionRequest data -> readable data ->
  truthy (field data "session_id") = true ->
  requests (calls (createNewChat later (final (createNewChat net s) s))
                  (final (createNewChat net s) s)) = [] /\
  notifications (calls (createNewChat later (final (createNewChat net s) s))
                       (final (createNewChat net s) s)) =
    [str "You already have an empty chat open"].
Proof.
  intros Hguard (resp & Hnet & Hok & Hbody) Hr Hid.
  assert (E : messages (final (createNewChat net s) s) = [] /\
              currentSessionId (final (createNewChat net s) s) =
                field data "session_id").
  { unfold newSessionRequest in Hnet. unfold final, run, createNewChat.
    rewrite Hguard. run_handler. rewrite Hnet, Hbody, Hok.
    rewrite !(get_readable _ Hr). cbn [state trace snd fst]. split.
    - cbn [messages with_notification].
      now rewrite (loadChatSessions_keeps_messages net).
    - cbn [currentSessionId with_notification].
      now rewrite (loadChatSessions_keeps_session net). }
  destruct E as [Em Ec].
  set (s' := final (createNewChat net s) s) in *.
  unfold calls, run, createNewChat. rewrite Em, Ec, Hid.
  split; reflexivity.
Qed.

(** *** Documents and layout leave the conversation alone *)

Lemma resetPagination_frame (s : State) :
  messages (resetPagination s) = messages s /\
  currentSessionId (resetPagination s) = currentSessionId s /\
  inputMessage (resetPagination s) = inputMessage s /\
  uploadedFiles (resetPagination s) = uploadedFiles s.
Proof.
  unfold resetPagination.
  now destruct ((totalPages s <=? currentPage s)%Z && (0 <? totalPages s)%Z).
Qed.

Lemma handler_keeps_chat (s : State) (ev : UiEvent) :
  chat_event ev = false ->
  keeps messages (handler net s ev) /\
  keeps currentSessionId (handler net s ev) /\
  keeps inputMessage (handler net s ev).
Proof.
  intros Hev. destruct ev; try discriminate; cbn [handler];
    (split; [|split]); keeps_tac.
Qed.

(** X15: no event outside the conversation (choosing, dropping and
    deleting files, reprocessing, paging, the drawers, drag and copy)
    changes the message list, the current session id or the text in the
    message box, whatever the server answers. *)
Theorem documents_leave_chat_alone (s : State) (ev : UiEvent) :
  chat_event ev = false ->
  messages (fst (step net s ev)) = messages s /\
  currentSessionId (fst (step net s ev)) = currentSessionId s /\
  inputMessage (fst (step net s ev)) = inputMessage s.
Proof.
  intros Hev. unfold step.
  destruct (deliverable s ev); [|now repeat split]. cbn [fst].
  destruct (handler_keeps_chat s ev Hev) as (Hm & Hc & Hi).
  destruct (resetPagination_frame (final (handler net s ev) s)) as (Rm & Rc & Ri & _).
  rewrite Rm, Rc, Ri. unfold final, run.
  now rewrite Hm, Hc, Hi.
Qed.

(** *** Pages *)


End WithNetwork.





Lemma slice_nonneg {A : Type} (l : list A) (a b : Z) :
  (0 <= a <= b)%Z ->
  slice l a b = firstn (Z.to_nat (b - a)) (skipn (Z.to_nat a) l).
Proof.
  intros [Ha Hab]. unfold slice. cbv zeta.
  destruct (Z.ltb_spec a 0); [lia|]. destruct (Z.ltb_spec b 0); [lia|].
  set (len := Z.of_nat (List.length l)).
  destruct (Z.le_gt_cases len a) as [Hge|Hlt].
  - rewrite (skipn_all2 (n := Z.to_nat a)) by lia.
    rewrite (skipn_all2 (n := Z.to_nat (Z.min a len))) by lia.
    now rewrite !firstn_nil.
  - replace (Z.min a len) with a by lia.
    destruct (Z.le_gt_cases b len) as [Hb|Hb].
    + now replace (Z.min b len) with b by lia.
    + rewrite !firstn_all2; [reflexivity | |]; rewrite length_skipn; lia.
Qed.

Lemma pageOf_eq (s : State) (p : nat) :
  pageOf s p = firstn 2 (skipn (2 * p) (uploadedFiles s)).
Proof.
  unfold pageOf, currentFiles, filesPerPage. cbn [uploadedFiles currentPage with_currentPage].
  rewrite slice_nonneg by lia. f_equal; [|f_equal]; lia.
Qed.

Lemma concat_pairs {A : Type} (n : nat) : forall l : list A,
  (List.length l <= 2 * n)%nat ->
  List.concat (map (fun p => firstn 2 (skipn (2 * p) l)) (seq 0 n)) = l.
Proof.
  induction n as [|n IH]; intros l Hl.
  - destruct l; [reflexivity | cbn in Hl; lia].
  - cbn [seq map List.concat]. rewrite <- seq_shift, map_map.
    rewrite (map_ext _ (fun p => firstn 2 (skipn (2 * p) (skipn 2 l)))).
    + rewrite IH; [apply firstn_skipn | rewrite length_skipn; lia].
    + intros p. rewrite skipn_skipn. do 2 f_equal. lia.
Qed.

(** X17: the pages partition the file list: one after the other they
    give back the uploaded files, each file once and in order; and no
    page is empty or holds more than two files. *)
Theorem pages_partition (s : State) :
  List.concat (pages s) = uploadedFiles s /\
  Forall (fun page => page <> [] /\ (List.length page <= 2)%nat) (pages s).
Proof.
  assert (Hn : (0 <= Z.of_nat (List.length (uploadedFiles s)))%Z)
    by apply Nat2Z.is_nonneg.
  pose proof (ceil_div_2 Hn) as Hc. split.
  - unfold pages. rewrite (map_ext _ _ (pageOf_eq s)).
    apply concat_pairs. unfold totalPages, filesPerPage. lia.
  - unfold pages. apply Forall_forall. intros page Hin.
    apply in_map_iff in Hin as (p & <- & Hp). apply in_seq in Hp. split.
    + unfold pageOf. apply currentFiles_nonempty.
      cbn [currentPage with_currentPage].
      change (totalPages (with_currentPage (Z.of_nat p) s)) with (totalPages s).
      lia.
    + rewrite pageOf_eq. rewrite length_firstn. lia.
Qed.

(** X18: from a settled page with a next page, "next" moves one page on
    and enables "previous", and "previous" then gives back the state
    "next" started from, on any network. *)
Theorem next_then_previous (net : Network) (s : State) :
  page_settled s -> deliverable s ClickNextPage = true ->
  currentPage (fst (step net s ClickNextPage)) = (currentPage s + 1)%Z /\
  deliverable (fst (step net s ClickNextPage)) ClickPrevPage = true /\
  fst (step net (fst (step net s ClickNextPage)) ClickPrevPage) = s.
Proof.
  intros [Hp HT] Hd.
  assert (Hd' := Hd). cbn [deliverable] in Hd'.
  apply andb_true_iff in Hd' as [H1 Hlast].
  apply Z.ltb_lt in H1. apply negb_true_iff, Z.eqb_neq in Hlast.
  specialize (HT ltac:(lia)).
  assert (E1 : fst (step net s ClickNextPage) = with_currentPage (currentPage s + 1) s).
  { unfold step. rewrite Hd. cbn [fst handler]. unfold final, run, setCurrentPage, modify.
    cbn [snd state]. rewrite Z.min_r by lia.
    unfold resetPagination.
    change (totalPages (with_currentPage (currentPage s + 1) s)) with (totalPages s).
    cbn [currentPage with_currentPage].
    destruct (Z.leb_spec (totalPages s) (currentPage s + 1)); [lia | reflexivity]. }
  rewrite E1. split; [reflexivity|].
  assert (Hd2 : deliverable (with_currentPage (currentPage s + 1) s) ClickPrevPage = true).
  { cbn [deliverable].
    change (totalPages (with_currentPage (currentPage s + 1) s)) with (totalPages s).
    cbn [currentPage with_currentPage].
    apply andb_true_iff. split; [now apply Z.ltb_lt|].
    apply negb_true_iff, Z.eqb_neq. lia. }
  split; [exact Hd2|].
  unfold step. rewrite Hd2. cbn [fst handler]. unfold final, run, setCurrentPage, modify.
  cbn [snd state currentPage with_currentPage].
  replace (currentPage s + 1 - 1)%Z with (currentPage s) by lia.
  rewrite Z.max_r by lia.
  unfold resetPagination.
  change (totalPages (with_currentPage (currentPage s)
                        (with_currentPage (currentPage s + 1) s)))
    with (totalPages s).
  cbn [currentPage with_currentPage].
  destruct (Z.leb_spec (totalPages s) (currentPage s)); [lia|].
  cbn [andb]. now destruct s.
Qed.

(** *** The typing animation *)

(** X19: while [loading] holds, the typing dots started within 0..3 stay
    within 0..3, come back to where they were after four ticks of the
    interval, and as many dots are lit as [typingDots] says; when
    [loading] is off a tick changes nothing. *)
Theorem typing_dots_cycle (s : State) :
  (loading s = true -> (0 <= typingDots s < 4)%Z ->
     (0 <= typingDots (tickTypingDots s) < 4)%Z /\
     tickTypingDots (tickTypingDots (tickTypingDots (tickTypingDots s))) = s /\
     List.length (litDots s) = Z.to_nat (typingDots s)) /\
  (loading s = false -> tickTypingDots s = s).
Proof.
  split.
  - intros Hl Hd. destruct s as [a b c d l f g h i j dots k m n].
    cbn [loading typingDots] in *. subst l.
    unfold tickTypingDots, litDots, nextTypingDots.
    cbn [loading typingDots with_typingDots sidebarOpen historyDrawerOpen
         messages inputMessage uploadedFiles chatStatus dragOver notification
         copiedIndex currentPage chatSessions currentSessionId].
    assert (Hcases : (dots = 0 \/ dots = 1 \/ dots = 2 \/ dots = 3)%Z) by lia.
    destruct Hcases as [E|[E|[E|E]]]; subst dots; cbn; repeat split; lia.
  - intros Hl. unfold tickTypingDots. now rewrite Hl.
Qed.

End Coverage.

(* ================================================================== *)
(** ** The client and the backend together *)
(* ================================================================== *)

Module EndToEnd.
Import Js Client ClientFacts.

(** *** The reloads that follow an upload *)

Section Reloads.

Variable net : Network.






End Reloads.

Section Together.

Variable Vector : Type.
Variable decode : string -> list Byte.byte -> option string.
Variable split : string -> list (string * (nat * nat)).
Variable embed : nat -> string -> option Vector.
Variable model : string.
Variable score : Vector -> Vector -> Z.
Variable assemble : list string -> list Backend.Message -> string -> string.
Variable generate : string -> option string.
Variable retrieval_k : nat.
Variable history_window : nat.
Variable default_title : string.
Variable net : Network.

Local Notation reachable :=
  (Backend.reachable decode split embed model score assemble generate
                     retrieval_k history_window default_title).

Local Notation answer :=
  (Backend.answer embed model score assemble generate retrieval_k
                  history_window default_title).

Local Notation upload := (Backend.upload decode split embed model).



(** With the backend's answer to GET /chat/status the client's status is
    the backend's. *)
Lemma status_transmitted (b : Backend.Backend Vector) (s : State) :
  net statusRequest = Resolved (Backend.status_response b) ->
  chatStatus (final (checkChatStatus net) s) =
    {| vectorstore_available :=
         JBool (Backend.available (Backend.vector_store_status b));
       document_count :=
         JNum (Z.of_nat (Backend.status_document_count
                           (Backend.vector_store_status b))) |}.
Proof.
  intros Hnet.
  destruct (ClientFacts.checkChatStatus_status net s) as (_ & _ & H).
  rewrite (H (JObj
    [(lit "vectorstore_available",
      JBool (Backend.available (Backend.vector_store_status b)));
     (lit "document_count",
      JNum (Z.of_nat (Backend.status_document_count
                        (Backend.vector_store_status b))))])).
  - unfold field, or_else. cbn [get lookup].
    change (jsstring_eqb (lit "vectorstore_available") (lit "vectorstore_available"))
      with true.
    change (jsstring_eqb (lit "document_count") (lit "vectorstore_available"))
      with false.
    change (jsstring_eqb (lit "document_count") (lit "document_count"))
      with true.
    cbn [truthy].
    destruct (Backend.available (Backend.vector_store_status b));
      destruct (Z.of_nat _ =? 0)%Z eqn:E; cbn [negb]; try reflexivity;
      apply Z.eqb_eq in E; now rewrite E.
  - exists (Backend.status_response b). repeat split; try reflexivity. exact Hnet.
  - split; discriminate.
Qed.

(** C5: on the client, whatever becomes of the request, the status kept
    after [checkChatStatus] has both fields; it is the default
    [{false, 0}] unless the request was answered with a 2xx status and a
    readable JSON body, and then each field is the one sent, or its
    default when the field is missing or falsy: a field sent with another
    type is kept as it came, and the status has the types of the
    interface when the answer has.  With the backend's own answer, the
    status the client keeps says available exactly when the state the
    backend reached has an index that is not empty, which takes a stored
    document, and its count is the number of the backend's documents
    that are [Indexed], at most the number of the documents stored. *)
Theorem status_report (b : Backend.Backend Vector) (s : State) :
  complete (chatStatus (final (checkChatStatus net) s)) /\
  ((forall data, succeeds net statusRequest data -> ~ readable data) ->
   chatStatus (final (checkChatStatus net) s) = defaultStatus) /\
  (forall data, succeeds net statusRequest data -> readable data ->
     chatStatus (final (checkChatStatus net) s) =
       {| vectorstore_available :=
            or_else (field data "vectorstore_available") (JBool false);
          document_count := or_else (field data "document_count") (JNum 0) |}) /\
  (status_typed net -> well_formed (chatStatus (final (checkChatStatus net) s))) /\
  (net statusRequest = Resolved (Backend.status_response b) ->
   (vectorstore_available (chatStatus (final (checkChatStatus net) s)) = JBool true <->
    Backend.index b <> []) /\
   (vectorstore_available (chatStatus (final (checkChatStatus net) s)) = JBool false <->
    Backend.index b = []) /\
   document_count (chatStatus (final (checkChatStatus net) s)) =
     JNum (Z.of_nat (List.length
       (filter (fun d => Backend.is_indexed (Backend.status d))
               (Backend.documents b)))) /\
   (List.length (filter (fun d => Backend.is_indexed (Backend.status d))
                        (Backend.documents b)) <=
    List.length (Backend.documents b))%nat /\
   (reachable b ->
    vectorstore_available (chatStatus (final (checkChatStatus net) s)) = JBool true ->
    Backend.documents b <> [])).
Proof.
  split; [apply ClientFacts.checkChatStatus_complete|].
  destruct (ClientFacts.checkChatStatus_status net s) as (H1 & H2 & H3).
  split; [exact H2|]. split; [exact H3|]. split; [exact H1|].
  intros Hnet. rewrite (@status_transmitted b s Hnet).
  cbn [vectorstore_available document_count].
  destruct (BackendFacts.status_derived b) as [Hav Hcount].
  assert (Hiff : JBool (Backend.available (Backend.vector_store_status b)) =
                 JBool true <-> Backend.index b <> []).
  { split.
    - intros [= E]. now apply Hav.
    - intros Hne. apply Hav in Hne. now rewrite Hne. }
  split; [exact Hiff|]. split; [|split; [|split]].
  - clear Hav Hcount Hiff. cbn [Backend.vector_store_status Backend.available].
    destruct (Backend.index b); cbn [Backend.is_available]; split; congruence.
  - now rewrite Hcount.
  - apply filter_length_le.
  - intros Hreach Htrue Hdocs. apply Hiff in Htrue. apply Htrue.
    apply BackendFacts.no_documents_empty_index; [|exact Hdocs].
    exact (BackendFacts.reachable_consistent Hreach).
Qed.

End Together.

End EndToEnd.

(* ================================================================== *)
(** ** The statements at work on the concrete server and engine *)
(* ================================================================== *)

Module Instances.
Import Js Client Demo.

Example flaky_upload_calls :
  requests (calls (uploadFile flaky notes) initialState) =
    [uploadRequest notes; listRequest; statusRequest; refreshRequest].
Proof. reflexivity. Qed.

Example stranded_send_is_dead :
  step flaky stranded ClickSend = (stranded, []) /\
  step flaky stranded (KeyPressInput (lit "Enter") false) = (stranded, []).
Proof. split; reflexivity. Qed.

Example null_body_keeps_user_message :
  let net := fun _ => Resolved (mkResponse 200 (Some JNull)) in
  List.length (messages (final (sendMessage net asking) asking)) = 1%nat.
Proof. reflexivity. Qed.

Example page_before_and_after_the_effect :
  currentFiles threeFiles = [] /\
  currentFiles (resetPagination threeFiles) = [str "c.txt"].
Proof. split; reflexivity. Qed.

Example session_ids_set_or_not :
  truthy (str "s-1") = true /\ truthy JNull = false /\
  truthy JUndefined = false /\ truthy (JStr []) = false.
Proof. repeat split; reflexivity. Qed.

Example sky_is_blue :
  Backend.vector_store_status oneDocument = Backend.mkStatus true 1 /\
  Backend.vector_store_status (run_calls [Backend.Delete "notes.txt"] oneDocument) =
    Backend.mkStatus false 0.
Proof. split; reflexivity. Qed.

Lemma sendMessage_noop_witness :
  (blank (inputMessage blankInput) = true \/ loading blankInput = true) /\
  requests (calls (sendMessage flaky blankInput) blankInput) = [] /\
  messages (final (sendMessage flaky blankInput) blankInput) = messages blankInput /\
  inputMessage (final (sendMessage flaky blankInput) blankInput) =
    inputMessage blankInput /\
  currentSessionId (final (sendMessage flaky blankInput) blankInput) =
    currentSessionId blankInput /\
  run (sendMessage flaky blankInput) blankInput = (Done tt, mkWorld blankInput []).
Proof.
  split; [left; reflexivity|].
  apply (@ClientFacts.sendMessage_noop flaky blankInput). left; reflexivity.
Defined.

Lemma sendMessage_success_witness :
  messages (final (sendMessage flaky asking) asking) =
    [userMessage (lit "What color is the sky?");
     assistantMessage (str "The sky is blue.") (JArr [str "notes.txt"])] /\
  currentSessionId (final (sendMessage flaky asking) asking) = str "s-1".
Proof.
  apply (@ClientFacts.sendMessage_success flaky asking
           (JObj [(lit "response", str "The sky is blue.");
                  (lit "source_documents", JArr [str "notes.txt"]);
                  (lit "session_id", str "s-1")])).
  - reflexivity.
  - reflexivity.
  - eexists; repeat split; reflexivity.
  - split; discriminate.
Defined.

Lemma createNewChat_guard_witness :
  (truthy (currentSessionId emptyChat) = true /\ messages emptyChat = []) /\
  calls (createNewChat flaky emptyChat) emptyChat =
    [ShowNotification (str "You already have an empty chat open")] /\
  In newSessionRequest (requests (calls (createNewChat flaky initialState) initialState)) /\
  currentSessionId (final (createNewChat flaky initialState) initialState) = str "s-2".
Proof.
  split; [split; reflexivity|].
  destruct (@ClientFacts.createNewChat_guard flaky emptyChat) as [Hguard _].
  destruct (@ClientFacts.createNewChat_guard flaky initialState) as [_ Hopen].
  split; [apply Hguard; split; reflexivity|].
  assert (Hno : ~ (truthy (currentSessionId initialState) = true /\
                   messages initialState = [])) by (intros [H _]; discriminate).
  destruct (Hopen Hno) as [Hsent Hdone].
  split; [exact Hsent|].
  apply (Hdone (JObj [(lit "session_id", str "s-2")])).
  - eexists; repeat split; reflexivity.
  - split; discriminate.
Defined.

(** A session id that is set and is not truthy: the user has opened the
    session with id 0, which holds no message, and "New Chat" is not
    refused: the POST is sent and the answered session is adopted. *)
Lemma new_chat_on_session_zero :
  currentSessionId sessionZero = JNum 0 /\
  messages sessionZero = [] /\
  requests (calls (createNewChat flaky sessionZero) sessionZero) =
    [newSessionRequest; sessionsRequest] /\
  notifications (calls (createNewChat flaky sessionZero) sessionZero) =
    [str "New chat created"] /\
  currentSessionId (final (createNewChat flaky sessionZero) sessionZero) = str "s-2".
Proof. repeat split; reflexivity. Qed.

(** The render between a deletion and the pagination effect: the last
    file of the second page is deleted, two files are listed, the page
    number is still 1, and the page shown is empty. *)
Lemma empty_page_before_the_effect :
  currentPage secondPage = 1%Z /\
  currentFiles secondPage = [str "c.txt"] /\
  uploadedFiles afterDelete = [str "a.txt"; str "b.txt"] /\
  (0 < totalPages afterDelete)%Z /\
  currentPage afterDelete = totalPages afterDelete /\
  currentFiles afterDelete = [] /\
  currentFiles (resetPagination afterDelete) = [str "a.txt"; str "b.txt"].
Proof. repeat split; reflexivity. Qed.

Lemma pagination_in_range_witness :
  ((0 <= currentPage threeFiles)%Z /\ uploadedFiles threeFiles <> []) /\
  (List.length (currentFiles threeFiles) <= 2)%nat /\
  (currentPage (resetPagination threeFiles) < totalPages (resetPagination threeFiles))%Z /\
  currentFiles (resetPagination threeFiles) <> [].
Proof.
  assert (H0 : (0 <= currentPage threeFiles)%Z) by (cbn; lia).
  assert (H1 : uploadedFiles threeFiles <> []) by discriminate.
  split; [split; assumption|].
  destruct (ClientFacts.pagination_in_range threeFiles) as (Hlen & Hreset & Hshown).
  split; [exact Hlen|]. split; [apply Hreset; reflexivity | now apply Hshown].
Defined.

Local Notation reachable :=
  (Backend.reachable decode split embed "demo" score assemble generate 3 10
                     "New Chat").
Local Notation answer :=
  (Backend.answer embed "demo" score assemble generate 3 10 "New Chat").

Lemma reachable_full : reachable full.
Proof. exists fiftySessions. reflexivity. Defined.

Lemma reachable_oneDocument : reachable oneDocument.
Proof. exists [Backend.Upload "notes.txt" blue]. reflexivity. Defined.

Lemma session_cap_respected_witness :
  reachable full /\
  (List.length (Backend.sessions full) <= 50)%nat /\
  exists victim,
    Backend.least_recently_updated (Backend.sessions full) = Some victim /\
    (forall s, In s (Backend.sessions full) ->
               (Backend.last_updated victim <= Backend.last_updated s)%nat) /\
    Permutation (Backend.sessions full)
                (victim :: Backend.evict (Backend.sessions full)) /\
    Backend.sessions (snd (Backend.create "one more" full)) =
      Backend.evict (Backend.sessions full) ++
      [fst (Backend.create "one more" full)] /\
    List.length (Backend.sessions (snd (Backend.create "one more" full))) = 50%nat.
Proof.
  split; [exact reachable_full|].
  destruct (@BackendFacts.session_cap_respected Z decode split embed "demo"
              score assemble generate 3 10 "New Chat" full reachable_full)
    as [Hcap Hevict].
  split; [exact Hcap|].
  apply (Hevict "one more"%string). vm_compute. reflexivity.
Defined.

Lemma delete_referential_integrity_witness :
  let b' := snd (Backend.delete "notes.txt" oneDocument) in
  Backend.delete "notes.txt" oneDocument = (Backend.Ok tt, b') /\
  (forall c, In c (Backend.chunks b') -> Backend.document_id c <> "notes.txt"%string) /\
  (forall e : Backend.Embedding Z,
     In e (Backend.index b') -> fst (Backend.embedding_chunk_id e) <> "notes.txt"%string) /\
  forall (after : list Backend.Call) q k hit,
    In hit (Backend.search score q k (Backend.index (run_calls after b'))) ->
    Backend.refers_to_stored_document (run_calls after b') (fst hit).
Proof.
  intros b'. split; [reflexivity|].
  apply (@BackendFacts.delete_referential_integrity Z decode split embed "demo"
           score assemble generate 3 10 "New Chat" oneDocument "notes.txt" b'
           reachable_oneDocument).
  reflexivity.
Defined.



Lemma reprocess_idempotent_witness :
  Backend.documents afterOutage <> [] /\
  Backend.index (reprocess_interrupted (reprocess_interrupted afterOutage)) =
    Backend.index (reprocess_interrupted afterOutage) /\
  Backend.index (reprocess_interrupted afterOutage) = Backend.index afterOutage /\
  Backend.chunks (reprocess_interrupted (reprocess_interrupted afterOutage)) =
    Backend.chunks (reprocess_interrupted afterOutage) /\
  Backend.documents (reprocess_interrupted (reprocess_interrupted afterOutage)) =
    Backend.documents (reprocess_interrupted afterOutage).
Proof.
  split; [discriminate|].
  destruct (@BackendFacts.reprocess_idempotent Z decode split interrupted "demo"
              afterOutage) as (Hindex & Hchunks & Hdocs & _).
  { intros d c _ _. reflexivity. }
  split; [exact Hindex|]. split; [reflexivity|].
  split; [exact Hchunks | exact Hdocs].
Defined.

(** A second run that differs from the first: the document was indexed
    at time 0; the first run of [reprocess] meets an embedding service
    that is down, and leaves the document [Failed] and the index empty;
    the second run, with the documents unchanged, meets the service up
    again and leaves the document [Indexed] with its vector in the
    index. *)
Lemma reprocess_after_outage :
  map Backend.status (Backend.documents beforeOutage) = [Backend.Indexed] /\
  map Backend.status (Backend.documents (reprocess_interrupted beforeOutage)) =
    [Backend.Failed] /\
  Backend.index (reprocess_interrupted beforeOutage) = [] /\
  map Backend.status
      (Backend.documents (reprocess_interrupted (reprocess_interrupted beforeOutage))) =
    [Backend.Indexed] /\
  Backend.index (reprocess_interrupted (reprocess_interrupted beforeOutage)) =
    Backend.index beforeOutage /\
  Backend.index (reprocess_interrupted (reprocess_interrupted beforeOutage)) <>
    Backend.index (reprocess_interrupted beforeOutage).
Proof. repeat split; try reflexivity. discriminate. Qed.


Lemma status_report_witness :
  let net := fun _ => Resolved (Backend.status_response oneDocument) in
  (status_typed net /\
   net statusRequest = Resolved (Backend.status_response oneDocument)) /\
  complete (chatStatus (final (checkChatStatus net) initialState)) /\
  well_formed (chatStatus (final (checkChatStatus net) initialState)) /\
  chatStatus (final (checkChatStatus net) initialState) =
    mkChatStatus (JBool true) (JNum 1) /\
  Backend.index oneDocument <> [] /\
  chatStatus (final (checkChatStatus (fun _ => Rejected [])) initialState) =
    defaultStatus.
Proof.
  intros net.
  assert (Htyped : status_typed net).
  { intros resp fields [= <-] [= <-].
    split; right; right; eexists; reflexivity. }
  split; [split; [exact Htyped | reflexivity]|].
  destruct (@EndToEnd.status_report Z decode split embed "demo" score assemble
              generate 3 10 "New Chat" net oneDocument initialState)
    as (Hcomplete & _ & _ & Hwell & Hsame).
  destruct (Hsame eq_refl) as (Hav & _).
  split; [exact Hcomplete|]. split; [exact (Hwell Htyped)|].
  split; [reflexivity|]. split; [apply Hav; reflexivity|].
  destruct (@EndToEnd.status_report Z decode split embed "demo" score assemble
              generate 3 10 "New Chat" (fun _ => Rejected []) oneDocument
              initialState)
    as (_ & Hdefault & _).
  apply Hdefault. intros data (resp & Hresp & _). discriminate.
Defined.

(** A status that is not well-formed: the server sends strings for the
    two fields; both are truthy, so both are kept as they came, and the
    message box is enabled on the string. *)
Lemma mistyped_status_kept :
  succeeds mistyped statusRequest
    (JObj [(lit "vectorstore_available", str "yes");
           (lit "document_count", str "3")]) /\
  chatStatus (final (checkChatStatus mistyped) initialState) =
    mkChatStatus (str "yes") (str "3") /\
  ~ well_formed (chatStatus (final (checkChatStatus mistyped) initialState)) /\
  inputDisabled (final (checkChatStatus mistyped) initialState) = false.
Proof.
  split; [eexists; repeat split; reflexivity|].
  split; [reflexivity|]. split; [|reflexivity].
  intros [[b Hb] _]. discriminate Hb.
Qed.

End Instances.

(* ================================================================== *)
(** ** The rest of the component at work on the concrete servers *)
(* ================================================================== *)

Module CoverageInstances.
Import Js Client Demo.

Ltac not_answered :=
  let H := fresh in
  intros ? H; repeat (destruct H as [? H]); discriminate.

Lemma sendMessage_unanswered_witness :
  messages (final (sendMessage refusing asking) asking) =
    [userMessage (lit "What color is the sky?")] /\
  currentSessionId (final (sendMessage refusing asking) asking) = JNull /\
  inputMessage (final (sendMessage refusing asking) asking) = [] /\
  loading (final (sendMessage refusing asking) asking) = false /\
  exists n, notifications (calls (sendMessage refusing asking) asking) = [n].
Proof.
  apply (@Coverage.sendMessage_unanswered refusing asking);
    [reflexivity | reflexivity |].
  intros data (resp & Hnet & Hok & _). injection Hnet as <-. discriminate.
Defined.

Lemma sendMessage_one_query_witness :
  deliverable asking ClickSend = true /\
  filter is_chat_query (requests (snd (step refusing asking ClickSend))) =
    [queryRequest asking].
Proof.
  split; [reflexivity|].
  apply (proj2 (@Coverage.sendMessage_one_query refusing asking)). reflexivity.
Defined.

Lemma loading_released_witness :
  loading (final (uploadFile flaky notes) waiting) = false /\
  loading (final (reprocessDocuments flaky) waiting) = false /\
  loading (final (sendMessage flaky asking) asking) = false.
Proof.
  destruct (@Coverage.loading_released flaky waiting notes) as (H1 & H2 & _).
  destruct (@Coverage.loading_released flaky asking notes) as (_ & _ & H3).
  split; [exact H1|]. split; [exact H2|]. apply H3. reflexivity.
Defined.

Lemma uploadFile_refused_witness :
  requests (calls (uploadFile refusing notes) initialState) = [uploadRequest notes] /\
  notifications (calls (uploadFile refusing notes) initialState) = [str "boom"].
Proof.
  destruct (@Coverage.uploadFile_refused refusing initialState notes)
    as (Hreq & _ & Hdetail).
  { intros data (resp & Hnet & Hok & _). injection Hnet as <-. discriminate. }
  split; [exact Hreq|].
  apply (Hdetail reason).
  - eexists; split; reflexivity.
  - split; discriminate.
Defined.

Lemma deleteFile_outcomes_witness :
  requests (calls (deleteFile accepting (str "a.txt")) initialState) =
    [deleteFileRequest (str "a.txt"); listRequest; statusRequest] /\
  notification (final (deleteFile refusing (str "a.txt")) initialState) =
    str "Failed to delete file" /\
  notification (final (deleteFile flaky (str "a.txt")) initialState) =
    str "Delete error: Failed to fetch".
Proof.
  destruct (@Coverage.deleteFile_outcomes accepting initialState (str "a.txt"))
    as (Hok & _ & _).
  destruct (@Coverage.deleteFile_outcomes refusing initialState (str "a.txt"))
    as (_ & Hno & _).
  destruct (@Coverage.deleteFile_outcomes flaky initialState (str "a.txt"))
    as (_ & _ & Hrej).
  split; [apply Hok; eexists; split; reflexivity|].
  unfold final. split.
  - rewrite Hno; [reflexivity | eexists; split; reflexivity].
  - rewrite (Hrej (lit "Failed to fetch") eq_refl). reflexivity.
Defined.

Lemma reprocessDocuments_outcomes_witness :
  requests (calls (reprocessDocuments accepting) initialState) =
    [reprocessRequest; statusRequest] /\
  calls (reprocessDocuments refusing) initialState =
    [Fetch reprocessRequest; ShowNotification (str "Failed to reprocess documents")] /\
  calls (reprocessDocuments flaky) initialState =
    [Fetch reprocessRequest;
     ShowNotification (str "Reprocess error: Failed to fetch")].
Proof.
  destruct (@Coverage.reprocessDocuments_outcomes accepting initialState)
    as (Hok & _ & _).
  destruct (@Coverage.reprocessDocuments_outcomes refusing initialState)
    as (_ & Hno & _).
  destruct (@Coverage.reprocessDocuments_outcomes flaky initialState)
    as (_ & _ & Hrej).
  split; [apply Hok; eexists; split; reflexivity|]. split.
  - apply Hno. eexists; split; reflexivity.
  - apply (Hrej (lit "Failed to fetch") eq_refl).
Defined.

Lemma deleteChatSession_outcomes_witness :
  (messages (final (deleteChatSession accepting talking (str "s-1")) talking) = [] /\
   currentSessionId (final (deleteChatSession accepting talking (str "s-1")) talking) =
     JNull) /\
  messages (final (deleteChatSession accepting talking (str "s-7")) talking) =
    messages talking /\
  run (deleteChatSession refusing talking (str "s-1")) talking =
    (Done tt, mkWorld talking [Fetch (deleteSessionRequest (str "s-1"))]).
Proof.
  destruct (@Coverage.deleteChatSession_outcomes accepting talking (str "s-1"))
    as (Hcur & _).
  destruct (@Coverage.deleteChatSession_outcomes accepting talking (str "s-7"))
    as (Hother & _).
  destruct (@Coverage.deleteChatSession_outcomes refusing talking (str "s-1"))
    as (_ & Hno).
  split; [|split].
  - apply Hcur; [eexists; split; reflexivity | reflexivity].
  - apply Hother; [eexists; split; reflexivity | reflexivity].
  - apply Hno. eexists; split; reflexivity.
Defined.

Lemma createNewChat_unanswered_witness :
  run (createNewChat refusing talking) talking =
    (Done tt, mkWorld talking [Fetch newSessionRequest]) /\
  (messages (final (createNewChat hollow talking) talking) = [] /\
   currentSessionId (final (createNewChat hollow talking) talking) = str "s-1" /\
   notifications (calls (createNewChat hollow talking) talking) =
     [str "Error creating new chat"]).
Proof.
  destruct (@Coverage.createNewChat_unanswered refusing talking eq_refl)
    as (_ & Hsilent & _).
  destruct (@Coverage.createNewChat_unanswered hollow talking eq_refl)
    as (_ & _ & Hnull & _).
  split.
  - apply (Hsilent _ _ eq_refl eq_refl eq_refl).
  - apply (Hnull _ eq_refl eq_refl eq_refl).
Defined.

Lemma loadChatSession_outcomes_witness :
  messages (final (loadChatSession accepting (str "s-1")) initialState) =
    [userMessage (lit "hello")] /\
  final (loadChatSession refusing (str "s-404")) talking =
    with_currentSessionId (str "s-404") (with_messages [] talking) /\
  final (loadChatSession hollow (str "s-1")) talking =
    with_notification (str "Error loading chat session") talking.
Proof.
  destruct (@Coverage.loadChatSession_outcomes accepting initialState (str "s-1"))
    as (Hopen & _).
  destruct (@Coverage.loadChatSession_outcomes refusing talking (str "s-404"))
    as (Hany & _).
  destruct (@Coverage.loadChatSession_outcomes hollow talking (str "s-1"))
    as (_ & Hnone).
  unfold final. split; [|split].
  - rewrite (Hopen everything);
      [reflexivity | eexists; split; reflexivity | split; discriminate |
       reflexivity].
  - rewrite (Hany reason);
      [reflexivity | eexists; split; reflexivity | split; discriminate |
       reflexivity].
  - rewrite Hnone; [reflexivity|].
    intros data (resp & Hnet & Hbody) [Hn _].
    injection Hnet as <-. injection Hbody as <-. congruence.
Defined.

Lemma loadUploadedFiles_outcomes_witness :
  uploadedFiles (final (loadUploadedFiles accepting) firstPage) = [str "a.txt"] /\
  uploadedFiles (final (loadUploadedFiles refusing) firstPage) = [] /\
  final (loadUploadedFiles flaky) firstPage =
    with_notification (str "Error loading files") firstPage.
Proof.
  destruct (@Coverage.loadUploadedFiles_outcomes accepting firstPage) as (Hok & _).
  destruct (@Coverage.loadUploadedFiles_outcomes refusing firstPage) as (Hany & _).
  destruct (@Coverage.loadUploadedFiles_outcomes flaky firstPage) as (_ & Hnone).
  unfold final. split; [|split].
  - rewrite (Hok everything);
      [reflexivity | eexists; split; reflexivity | split; discriminate |
       reflexivity].
  - rewrite (Hany reason);
      [reflexivity | eexists; split; reflexivity | split; discriminate |
       reflexivity].
  - rewrite Hnone; [reflexivity|]. intros data (resp & Hnet & _). discriminate.
Defined.

Lemma loadChatSessions_outcomes_witness :
  final (loadChatSessions flaky) talking = talking /\
  chatSessions (final (loadChatSessions accepting) talking) =
    [JObj [(lit "id", str "s-1")]].
Proof.
  destruct (@Coverage.loadChatSessions_outcomes flaky talking) as (_ & _ & Hkeep & _).
  destruct (@Coverage.loadChatSessions_outcomes accepting talking) as (_ & _ & _ & Hset).
  split.
  - apply Hkeep. intros data (resp & Hnet & _). discriminate.
  - rewrite (Hset everything);
      [reflexivity | eexists; split; reflexivity | split; discriminate |
       reflexivity].
Defined.

Lemma checkChatStatus_outcomes_witness :
  inputDisabled asking = false /\
  inputDisabled (final (checkChatStatus refusing) asking) = true /\
  sendDisabled (final (checkChatStatus refusing) asking) = true /\
  notifications (calls (checkChatStatus accepting) asking) = [].
Proof.
  destruct (@Coverage.checkChatStatus_outcomes refusing asking) as (Hfail & _).
  destruct (@Coverage.checkChatStatus_outcomes accepting asking) as (_ & Hok).
  split; [reflexivity|].
  destruct Hfail as (_ & _ & Hin & Hsend).
  { intros data (resp & Hnet & Hk & _). injection Hnet as <-. discriminate. }
  split; [exact Hin|]. split; [exact Hsend|].
  unfold calls. rewrite (Hok everything);
    [reflexivity | eexists; repeat split; reflexivity | split; discriminate].
Defined.

Lemma handleKeyPress_outcomes_witness :
  run (handleKeyPress flaky asking (lit "Enter") true) asking =
    (Done tt, mkWorld asking []) /\
  run (handleKeyPress flaky asking (lit "a") false) asking =
    (Done tt, mkWorld asking []) /\
  run (handleKeyPress flaky blankInput (lit "Enter") false) blankInput =
    (Done tt, mkWorld blankInput [PreventDefault]) /\
  filter is_chat_query
    (requests (calls (handleKeyPress flaky asking (lit "Enter") false) asking)) =
    [queryRequest asking].
Proof.
  split; [|split; [|split]].
  - apply (proj1 (@Coverage.handleKeyPress_outcomes flaky asking (lit "Enter") true)).
    now right.
  - apply (proj1 (@Coverage.handleKeyPress_outcomes flaky asking (lit "a") false)).
    left. discriminate.
  - apply (proj1 (proj2 (@Coverage.handleKeyPress_outcomes flaky blankInput
                           (lit "Enter") false))).
    left. reflexivity.
  - apply (proj2 (proj2 (@Coverage.handleKeyPress_outcomes flaky asking
                           (lit "Enter") false))); reflexivity.
Defined.

Lemma documents_leave_chat_alone_witness :
  chat_event (DropFiles [notes]) = false /\
  messages (fst (step accepting talking (DropFiles [notes]))) = messages talking /\
  currentSessionId (fst (step accepting talking (DropFiles [notes]))) =
    currentSessionId talking /\
  inputMessage (fst (step accepting talking (DropFiles [notes]))) =
    inputMessage talking.
Proof.
  split; [reflexivity|].
  apply (@Coverage.documents_leave_chat_alone accepting talking (DropFiles [notes])).
  reflexivity.
Defined.


Lemma typing_enables_send_witness :
  deliverable asking (ChangeInput (lit "  ")) = true /\
  deliverable (fst (step flaky asking (ChangeInput (lit "  ")))) ClickSend = false /\
  deliverable (fst (step flaky asking (ChangeInput (lit " hi ")))) ClickSend = true.
Proof.
  split; [reflexivity|].
  destruct (@Coverage.typing_enables_send flaky asking (lit "  ") eq_refl) as [_ H1].
  destruct (@Coverage.typing_enables_send flaky asking (lit " hi ") eq_refl) as [_ H2].
  split; [exact H1 | exact H2].
Defined.

Lemma createNewChat_twice_witness :
  requests (calls (createNewChat refusing (final (createNewChat accepting talking) talking))
                  (final (createNewChat accepting talking) talking)) = [] /\
  notifications
    (calls (createNewChat refusing (final (createNewChat accepting talking) talking))
           (final (createNewChat accepting talking) talking)) =
    [str "You already have an empty chat open"].
Proof.
  apply (@Coverage.createNewChat_twice accepting refusing talking everything).
  - reflexivity.
  - eexists; repeat split; reflexivity.
  - split; discriminate.
  - reflexivity.
Defined.

Lemma next_then_previous_witness :
  (page_settled firstPage /\ deliverable firstPage ClickNextPage = true) /\
  currentPage (fst (step flaky firstPage ClickNextPage)) = 1%Z /\
  deliverable (fst (step flaky firstPage ClickNextPage)) ClickPrevPage = true /\
  fst (step flaky (fst (step flaky firstPage ClickNextPage)) ClickPrevPage) = firstPage.
Proof.
  assert (Hs : page_settled firstPage).
  { split; [cbn; lia | intros _; reflexivity]. }
  split; [split; [exact Hs | reflexivity]|].
  apply (@Coverage.next_then_previous flaky firstPage Hs). reflexivity.
Defined.

Lemma typing_dots_cycle_witness :
  (loading waiting = true /\ (0 <= typingDots waiting < 4)%Z) /\
  (0 <= typingDots (tickTypingDots waiting) < 4)%Z /\
  tickTypingDots (tickTypingDots (tickTypingDots (tickTypingDots waiting))) = waiting /\
  List.length (litDots waiting) = Z.to_nat (typingDots waiting) /\
  tickTypingDots asking = asking.
Proof.
  assert (Hd : (0 <= typingDots waiting < 4)%Z) by (cbn; lia).
  split; [split; [reflexivity | exact Hd]|].
  destruct (Coverage.typing_dots_cycle waiting) as [Hon _].
  destruct (Coverage.typing_dots_cycle asking) as [_ Hoff].
  destruct (Hon eq_refl Hd) as (H1 & H2 & H3).
  split; [exact H1|]. split; [exact H2|]. split; [exact H3|].
  apply Hoff. reflexivity.
Defined.

End CoverageInstances.
